(** * nls: the solution state of the polariton-condensate solver

    A shallow embedding of [src/nls/model.py] (the [Problem] factory, the
    models and the [Solution] class) together with the parts of numpy and
    scipy.io that the module calls.  Python floats and numpy's float64 are
    Rocq's primitive binary64 floats, so every arithmetic step below is the
    IEEE-754 operation that the interpreter performs. *)

From Stdlib Require Import ZArith Ascii String.
From Stdlib Require Import Floats.PrimFloat Floats.SpecFloat Floats.FloatOps.
From stdpp Require Import gmap strings list.

Set Warnings "-inexact-float".

(** ** Exceptions and results *)

(** The Python exceptions that the modelled code can raise. *)
Inductive exn : Type :=
| KeyError (key : string)
| ZeroDivisionError
| OverflowError
| ValueError
| TypeError
| AttributeError
| IndexError
| IOError
| Exception (msg : string).

(** A call either returns a value or raises. *)
Inductive result (A : Type) : Type :=
| Ok (a : A)
| Raise (e : exn).
Arguments Ok {A} a.
Arguments Raise {A} e.

#[global] Instance result_ret : MRet result := λ A a, Ok a.
#[global] Instance result_bind : MBind result := λ A B f m,
  match m with
  | Ok a => f a
  | Raise e => Raise e
  end.

Definition is_Ok {A} (r : result A) : Prop := ∃ a, r = Ok a.

(** [d[k]] on a dictionary with string keys. *)
Definition getitem {V} (d : gmap string V) (k : string) : result V :=
  match d !! k with
  | Some v => Ok v
  | None => Raise (KeyError k)
  end.

(** ** Floats *)

Module Float.

(** [float(z)] for a Python int: rounding to nearest even, [OverflowError]
    beyond the binary64 range. *)
Definition round_Z (z : Z) : float := SF2Prim (binary_normalize 53 1024 z 0 false).

Definition of_int (z : Z) : result float :=
  let f := round_Z z in
  if is_infinity f then Raise OverflowError else Ok f.

(** An array index as float64 (exact below 2^53). *)
Definition of_nat (i : nat) : float := round_Z (Z.of_nat i).

(** Python's [a / b] on floats. *)
Definition truediv (a b : float) : result float :=
  if (b =? 0)%float then Raise ZeroDivisionError else Ok (a / b)%float.

(** Ceiling of a finite float, as numpy takes it for the length of [arange]. *)
Definition ceil (f : float) : option Z :=
  match Prim2SF f with
  | S754_zero _ => Some 0%Z
  | S754_finite s m e =>
      let v := if (0 <=? e)%Z then (Z.pos m * 2 ^ e)%Z
               else if s then (Z.pos m / 2 ^ (- e))%Z
               else (- ((- Z.pos m) / 2 ^ (- e)))%Z in
      Some (if s then (- v)%Z else v)
  | _ => None
  end.

End Float.

(** complex128: a pair of binary64 numbers. *)
Record complex : Type := Complex { re : float; im : float }.

Definition conj (z : complex) : complex := Complex (re z) (- im z)%float.

Definition cmul (a b : complex) : complex :=
  Complex (re a * re b - im a * im b)%float (re a * im b + im a * re b)%float.

(** ** numpy arrays *)

(** Arrays of rank at most two, stored row-major as numpy does. *)
Inductive Shape : Type :=
| Sh0
| Sh1 (n : nat)
| Sh2 (r c : nat).

Record ndarray (A : Type) : Type := NdArray { shape : Shape; data : list A }.
Arguments NdArray {A} shape data.
Arguments shape {A} _.
Arguments data {A} _.

(** A field is a float64 or a complex128 array. *)
Inductive array : Type :=
| FloatArray (a : ndarray float)
| ComplexArray (a : ndarray complex).

Module np.

Definition size (s : Shape) : nat :=
  match s with
  | Sh0 => 1
  | Sh1 n => n
  | Sh2 r c => r * c
  end.

Definition rank (s : Shape) : nat :=
  match s with
  | Sh0 => 0
  | Sh1 _ => 1
  | Sh2 _ _ => 2
  end.

(** The buffer holds exactly the elements the shape announces. *)
Definition wf {A} (a : ndarray A) : Prop := length (data a) = size (shape a).

(** [len(a)]: the extent of the first axis. *)
Definition len (s : Shape) : result nat :=
  match s with
  | Sh0 => Raise TypeError
  | Sh1 n => Ok n
  | Sh2 r _ => Ok r
  end.

(** [a.T]: axes reversed; a no-op below rank two. *)
Definition T {A} (a : ndarray A) : ndarray A :=
  match shape a with
  | Sh2 r c =>
      NdArray (Sh2 c r) (j ← seq 0 c; i ← seq 0 r; option_list (data a !! (i * c + j)))
  | _ => a
  end.

(** [a[k]] for a constant index [k >= 0]. *)
Definition item {A} (a : ndarray A) (k : nat) : result (ndarray A) :=
  match shape a with
  | Sh0 => Raise IndexError
  | Sh1 n => if decide (k < n) then Ok (NdArray Sh0 (option_list (data a !! k)))
             else Raise IndexError
  | Sh2 r c => if decide (k < r) then Ok (NdArray (Sh1 c) (take c (drop (k * c) (data a))))
               else Raise IndexError
  end.

(** [a[k] = v] on a one-dimensional array, [k] within bounds. *)
Definition setitem {A} (a : ndarray A) (k : nat) (v : A) : ndarray A :=
  NdArray (shape a) (<[k := v]> (data a)).

Definition zeros (n : nat) : ndarray float := NdArray (Sh1 n) (replicate n 0%float).

(** [ones(n)] and [ones((n, n))]; a negative extent is a [ValueError]. *)
Definition ones (n : Z) : result (ndarray float) :=
  if (n <? 0)%Z then Raise ValueError
  else Ok (NdArray (Sh1 (Z.to_nat n)) (replicate (Z.to_nat n) 1%float)).

Definition ones2 (n : Z) : result (ndarray float) :=
  if (n <? 0)%Z then Raise ValueError
  else Ok (NdArray (Sh2 (Z.to_nat n) (Z.to_nat n))
             (replicate (Z.to_nat n * Z.to_nat n) 1%float)).

(** [a.reshape(n)]. *)
Definition reshape {A} (a : ndarray A) (n : nat) : result (ndarray A) :=
  if decide (size (shape a) = n) then Ok (NdArray (Sh1 n) (data a)) else Raise ValueError.

(** [linspace(start, stop, num)] with the end point included: [num]
    samples of the closed interval, the last one set to [stop]. *)
Definition linspace (start stop : float) (num : Z) : result (ndarray float) :=
  if (num <? 0)%Z then Raise ValueError
  else
    let n := Z.to_nat num in
    let div := Float.of_nat (n - 1) in
    let delta := (stop - start)%float in
    let y :=
      if decide (1 < n) then
        let step := (delta / div)%float in
        if (step =? 0)%float
        then (λ i, (Float.of_nat i / div * delta + start)%float) <$> seq 0 n
        else (λ i, (Float.of_nat i * step + start)%float) <$> seq 0 n
      else (λ i, (Float.of_nat i * delta + start)%float) <$> seq 0 n in
    Ok (NdArray (Sh1 n) (if decide (1 < n) then <[n - 1 := stop]> y else y)).

(** [arange(start, stop, step)] on floats: [ceil((stop - start) / step)]
    values [start + i * step] of the half-open interval. *)
Definition arange (start stop step : float) : result (ndarray float) :=
  q ← Float.truediv (stop - start)%float step;
  match Float.ceil q with
  | None => Raise ValueError
  | Some l =>
      let n := Z.to_nat l in
      Ok (NdArray (Sh1 n) ((λ i, (start + Float.of_nat i * step)%float) <$> seq 0 n))
  end.

(** [meshgrid(x, x)]: [X[i][j] = x[j]] and [Y[i][j] = x[i]]. *)
Definition meshgrid2 (x : ndarray float) : ndarray float * ndarray float :=
  let n := length (data x) in
  (NdArray (Sh2 n n) (mjoin (replicate n (data x))),
   NdArray (Sh2 n n) (xi ← data x; replicate n xi)).

(** Broadcasting of two operands of rank at most two. *)
Definition view2 (s : Shape) : nat * nat :=
  match s with
  | Sh0 => (1, 1)
  | Sh1 n => (1, n)
  | Sh2 r c => (r, c)
  end.

Definition bdim (a b : nat) : result nat :=
  if decide (a = b) then Ok a
  else if decide (a = 1) then Ok b
  else if decide (b = 1) then Ok a
  else Raise ValueError.

Definition bshape (k r c : nat) : Shape :=
  match k with
  | 0 => Sh0
  | 1 => Sh1 c
  | _ => Sh2 r c
  end.

Definition bindex (s : Shape) (i j : nat) : nat :=
  (if decide ((view2 s).1 = 1) then 0 else i) * (view2 s).2
  + (if decide ((view2 s).2 = 1) then 0 else j).

Definition broadcast {A B C} (f : A → B → C) (a : ndarray A) (b : ndarray B)
  : result (ndarray C) :=
  r ← bdim (view2 (shape a)).1 (view2 (shape b)).1;
  c ← bdim (view2 (shape a)).2 (view2 (shape b)).2;
  Ok (NdArray (bshape (rank (shape a) `max` rank (shape b)) r c)
        (i ← seq 0 r; j ← seq 0 c;
         match data a !! bindex (shape a) i j, data b !! bindex (shape b) i j with
         | Some x, Some y => [f x y]
         | _, _ => []
         end)).

Definition add := broadcast PrimFloat.add.
Definition mul := broadcast PrimFloat.mul.
Definition div := broadcast PrimFloat.div.

End np.


(** ** Pumping profiles *)

(** Modelled from the spec: the profile classes of [nls/pumping.py], which
    is not part of the sources.  A profile is a pure function of position,
    evaluable over a 1D coordinate array and over a meshed pair of 2D
    coordinate arrays, returning a same-shaped intensity array in both
    cases. *)
Record Pumping : Type := { at1 : float → float; at2 : float → float → float }.

(** [pumping(x)] and [pumping(X, Y)]. *)
Definition call1 (p : Pumping) (x : ndarray float) : ndarray float :=
  NdArray (shape x) (at1 p <$> data x).

Definition call2 (p : Pumping) (X Y : ndarray float) : ndarray float :=
  NdArray (shape X) (zip_with (at2 p) (data X) (data Y)).

Definition ashape (a : array) : Shape :=
  match a with
  | FloatArray a => shape a
  | ComplexArray a => shape a
  end.

(** The same buffer under another shape. *)
Definition with_shape (s : Shape) (a : array) : array :=
  match a with
  | FloatArray a => FloatArray (NdArray s (data a))
  | ComplexArray a => ComplexArray (NdArray s (data a))
  end.

Definition awf (a : array) : Prop :=
  match a with
  | FloatArray a => np.wf a
  | ComplexArray a => np.wf a
  end.

(** [(a.conj() * a).real] *)
Definition density (a : array) : ndarray float :=
  match a with
  | FloatArray a => NdArray (shape a) ((λ v, v * v)%float <$> data a)
  | ComplexArray a => NdArray (shape a) ((λ z, re (cmul (conj z) z)) <$> data a)
  end.

(** [elapsed_time] is a Python float until [restore] replaces it by the
    array read from the file. *)
Inductive seconds : Type :=
| Seconds (t : float)
| SecondsArray (a : ndarray float).

Definition seconds_values (s : seconds) : list float :=
  match s with
  | Seconds t => [t]
  | SecondsArray a => data a
  end.

(** ** scipy.io: mat-files *)

Module sio.

(** What [loadmat] returns for a file: every variable that the file holds,
    arrays at least two-dimensional, a string as an array of strings that
    is empty for the empty string. *)
Record matfile : Type := {
  m_desc : option (list string);
  m_dimlesses : option (ndarray float);
  m_elapsed_time : option (ndarray float);
  m_label : option (list string);
  m_originals : option (gmap string float);
  m_pumping : option (ndarray float);
  m_solution : option array;
}.

(** What a file is to [loadmat]: a mat-file with its variables, or bytes
    that [loadmat] refuses with an exception. *)
Inductive file : Type :=
| MatFile (m : matfile)
| Unreadable (e : exn).

Inductive mode : Type :=
| Read
| Write.

(** The file system.  [locate mode name] is the file that [open(name,
    mode)] reaches, or the exception that [open] raises for another
    reason than the absence of the file (a missing directory, a missing
    permission, a null byte in the name); files are told apart by a
    canonical path, which two names of one file share.  [files] are the
    files that exist. *)
Record filesystem : Type := {
  locate : mode → string → result string;
  files : gmap string file;
}.

(** The dictionary that a store method hands to [savemat], its keys in
    the order of their insertion; an absent key is [None], the value
    [None] of the key [solution] is [Some None]. *)
Record mdict : Type := {
  desc : option string;
  dimlesses : option (ndarray float);
  elapsed_time : option seconds;
  label : option string;
  originals : option (gmap string float);
  pumping : option (ndarray float);
  solution : option (option array);
}.

(** [matdims]: a written array has rank two; a scalar is 1 x 1, an empty
    one-dimensional array 0 x 0, any other one-dimensional array of
    length n the row 1 x n. *)
Definition atleast_2d {A} (a : ndarray A) : ndarray A :=
  match shape a with
  | Sh0 => NdArray (Sh2 1 1) (data a)
  | Sh1 0 => NdArray (Sh2 0 0) (data a)
  | Sh1 n => NdArray (Sh2 1 n) (data a)
  | Sh2 _ _ => a
  end.

Definition array_2d (a : array) : array :=
  match a with
  | FloatArray a => FloatArray (atleast_2d a)
  | ComplexArray a => ComplexArray (atleast_2d a)
  end.

Definition seconds_2d (s : seconds) : ndarray float :=
  match s with
  | Seconds t => NdArray (Sh2 1 1) [t]
  | SecondsArray a => atleast_2d a
  end.

Definition chars (s : string) : list string :=
  if decide (s = "") then [] else [s].

(** [s.endswith(suffix)] *)
Definition endswith (s suffix : string) : bool :=
  String.eqb
    (String.substring (String.length s - String.length suffix) (String.length suffix) s)
    suffix.

(** [appendmat=True]: [.mat] is appended to a name that does not end in
    it. *)
Definition appendmat (file_name : string) : string :=
  if endswith file_name ".mat" then file_name else (file_name ++ ".mat")%string.

(** [open(name, 'rb')]: the file has to exist. *)
Definition open_rb (fs : filesystem) (name : string) : result string :=
  p ← locate fs Read name;
  match files fs !! p with
  | Some _ => Ok p
  | None => Raise IOError
  end.

(** [_open_file(file_like, appendmat)] of [loadmat]: the name as it is
    given, and when [open] raises an [IOError] the name with [.mat]
    appended. *)
Definition _open_file (fs : filesystem) (file_like : string) : result string :=
  match open_rb fs file_like with
  | Raise IOError => open_rb fs (appendmat file_like)
  | r => r
  end.

Definition loadmat (fs : filesystem) (file_name : string) : result matfile :=
  p ← _open_file fs file_name;
  match files fs !! p with
  | Some (MatFile m) => Ok m
  | Some (Unreadable e) => Raise e
  | None => Raise IOError
  end.

(** [field[0] not in '_0123456789'], for a key that is not empty. *)
Definition is_field (field : string) : bool :=
  match field with
  | EmptyString => false
  | String c _ => negb (bool_decide (c ∈ list_ascii_of_string "_0123456789"))
  end.

(** [to_writeable] on a dictionary: the items whose key starts with
    neither an underscore nor a digit become the fields of a struct; on
    an empty key [field[0]] raises. *)
Definition to_writeable (d : gmap string float) : result (gmap string float) :=
  if decide (is_Some (d !! "")) then Raise IndexError
  else Ok (filter (λ kv, is_field kv.1 = true) d).

(** [write_struct]: field names are restricted to 31 characters. *)
Definition names_fit (fields : gmap string float) : Prop :=
  map_Forall (λ k _, String.length k ≤ 31) fields.

(** [put_variables]: the variables are written one after the other in
    the order of the dictionary.  [None] cannot be written and raises
    a [TypeError] before anything of that variable is written; a
    dictionary with an empty key raises likewise; a field name that is
    too long raises when the header of the struct is in the file
    already, and [loadmat] refuses such a file with a [ValueError].  The
    variables written before the exception stay in the file. *)
Definition put_variables (d : mdict) : result unit * file :=
  let rest (o : option (gmap string float)) :=
    match solution d with
    | None =>
        (Ok (), MatFile {|
           m_desc := chars <$> desc d;
           m_dimlesses := atleast_2d <$> dimlesses d;
           m_elapsed_time := seconds_2d <$> elapsed_time d;
           m_label := chars <$> label d;
           m_originals := o;
           m_pumping := atleast_2d <$> pumping d;
           m_solution := None |})
    | Some None =>
        (Raise TypeError, MatFile {|
           m_desc := chars <$> desc d;
           m_dimlesses := atleast_2d <$> dimlesses d;
           m_elapsed_time := seconds_2d <$> elapsed_time d;
           m_label := chars <$> label d;
           m_originals := o;
           m_pumping := atleast_2d <$> pumping d;
           m_solution := None |})
    | Some (Some sol) =>
        (Ok (), MatFile {|
           m_desc := chars <$> desc d;
           m_dimlesses := atleast_2d <$> dimlesses d;
           m_elapsed_time := seconds_2d <$> elapsed_time d;
           m_label := chars <$> label d;
           m_originals := o;
           m_pumping := atleast_2d <$> pumping d;
           m_solution := Some (array_2d sol) |})
    end in
  match originals d with
  | None => rest None
  | Some o =>
      match to_writeable o with
      | Raise e =>
          (Raise e, MatFile {|
             m_desc := chars <$> desc d;
             m_dimlesses := atleast_2d <$> dimlesses d;
             m_elapsed_time := seconds_2d <$> elapsed_time d;
             m_label := chars <$> label d;
             m_originals := None;
             m_pumping := None;
             m_solution := None |})
      | Ok fields =>
          if decide (names_fit fields) then rest (Some fields)
          else (Raise ValueError, Unreadable ValueError)
      end
  end.

(** [savemat(file_name, mdict)]: [open(file_name, 'wb')] on the name
    with [.mat] appended creates the file or empties it, then the
    variables are written. *)
Definition savemat (fs : filesystem) (file_name : string) (d : mdict)
  : result unit * filesystem :=
  match locate fs Write (appendmat file_name) with
  | Raise e => (Raise e, fs)
  | Ok p =>
      let '(r, f) := put_variables d in
      (r, {| locate := locate fs; files := <[p := f]> (files fs) |})
  end.

(** [matfile[key]] *)
Definition var {A} (v : option A) (key : string) : result A :=
  match v with
  | Some a => Ok a
  | None => Raise (KeyError key)
  end.

End sio.

Definition array_T (a : array) : array :=
  match a with
  | FloatArray a => FloatArray (np.T a)
  | ComplexArray a => ComplexArray (np.T a)
  end.

(** [str.replace(' ', '_')] *)
Fixpoint replace_spaces (s : string) : string :=
  match s with
  | EmptyString => EmptyString
  | String c s' => String (if decide (c = " "%char) then "_"%char else c) (replace_spaces s')
  end.

(** ** class Solution *)

Module Solution.

(** The attributes of a [Solution] object.  The steps and the physical
    parameters are Python floats, the counts Python ints.  [desc] and
    [label] do not exist until [restore] creates them. *)
Record t : Type := mk {
  dt : float;
  dx : float;
  order : Z;
  num_nodes : Z;
  num_iters : Z;
  pumping : Pumping;
  init_sol : array;
  solution : option array;
  originals : gmap string float;
  coeffs : ndarray float;
  elapsed_time : seconds;
  desc : option string;
  label : option string;
}.

(** The reference time scale, in seconds. *)
Definition t0 : float := 1.0%float.

Definition __init__ (dt dx : float) (num_nodes order num_iters : Z) (pumping : Pumping)
    (originals : gmap string float) (init_solution : array) : result t :=
  let coeffs := np.zeros 23 in
  (* NLS equation coefficients *)
  let coeffs := np.setitem coeffs 0 1.0%float in
  let coeffs := np.setitem coeffs 1 1.0%float in
  R ← getitem originals "R";
  tilde_g ← getitem originals "tilde_g";
  c2 ← Float.truediv R (4.0 * tilde_g)%float;
  let coeffs := np.setitem coeffs 2 c2 in
  gamma ← getitem originals "gamma";
  let coeffs := np.setitem coeffs 3 (gamma * t0 / 2)%float in
  let coeffs := np.setitem coeffs 4 1.0%float in
  let coeffs := np.setitem coeffs 5 1.0%float in
  (* Reservoir equation coefficients *)
  let coeffs := np.setitem coeffs 10 0.0%float in
  tilde_g ← getitem originals "tilde_g";
  gamma_R ← getitem originals "gamma_R";
  c11 ← Float.truediv (2.0 * tilde_g * t0)%float gamma_R;
  let coeffs := np.setitem coeffs 11 c11 in
  let coeffs := np.setitem coeffs 12 1.0%float in
  R ← getitem originals "R";
  gamma_R ← getitem originals "gamma_R";
  g ← getitem originals "g";
  c13 ← Float.truediv R (gamma_R * g)%float;
  let coeffs := np.setitem coeffs 13 c13 in
  let coeffs := np.setitem coeffs 14 0.0%float in
  Ok {| dt := dt; dx := dx; order := order; num_nodes := num_nodes;
        num_iters := num_iters; pumping := pumping; init_sol := init_solution;
        solution := None; originals := originals; coeffs := coeffs;
        elapsed_time := Seconds 0.0%float; desc := None; label := None |}.

Definition getTimeStep (self : t) : float := dt self.
Definition getSpatialStep (self : t) : float := dx self.
Definition getApproximationOrder (self : t) : Z := order self.
Definition getNumberOfNodes (self : t) : Z := num_nodes self.
Definition getNumberOfIterations (self : t) : Z := num_iters self.
Definition getCoefficients (self : t) : ndarray float := coeffs self.
Definition getInitialSolution (self : t) : array := init_sol self.
Definition getSolution (self : t) : option array := solution self.
Definition getElapsedTime (self : t) : seconds := elapsed_time self.

(** The two branches of [getPumping]: the centred square mesh, flattened,
    and the radial line. *)
Definition cartesian_sample (p : Pumping) (num_nodes : Z) (dx : float)
  : result (ndarray float) :=
  n ← Float.of_int num_nodes;
  let right := (n * dx / 2)%float in
  let left := (- right)%float in
  x ← np.linspace left right num_nodes;
  let grid := np.meshgrid2 x in
  np.reshape (call2 p grid.1 grid.2) (Z.to_nat (num_nodes ^ 2)).

Definition radial_sample (p : Pumping) (num_nodes : Z) (dx : float)
  : result (ndarray float) :=
  n ← Float.of_int num_nodes;
  let right := (n * dx)%float in
  let left := 0.0%float in
  x ← np.linspace left right num_nodes;
  Ok (call1 p x).

Definition getPumping (self : t) : result (ndarray float) :=
  l ← np.len (ashape (init_sol self));
  if decide ((num_nodes self ^ 2)%Z = Z.of_nat l)
  then cartesian_sample (pumping self) (num_nodes self) (dx self)
  else radial_sample (pumping self) (num_nodes self) (dx self).

Definition setNumberOfIterations (num_iters : Z) (self : t) : t :=
  {| dt := dt self; dx := dx self; order := order self; num_nodes := num_nodes self;
     num_iters := num_iters; pumping := pumping self; init_sol := init_sol self;
     solution := solution self; originals := originals self; coeffs := coeffs self;
     elapsed_time := elapsed_time self; desc := desc self; label := label self |}.

Definition setPumping (pumping : Pumping) (self : t) : t :=
  {| dt := dt self; dx := dx self; order := order self; num_nodes := num_nodes self;
     num_iters := num_iters self; pumping := pumping; init_sol := init_sol self;
     solution := solution self; originals := originals self; coeffs := coeffs self;
     elapsed_time := elapsed_time self; desc := desc self; label := label self |}.

Definition setInitialSolution (sol : array) (self : t) : t :=
  {| dt := dt self; dx := dx self; order := order self; num_nodes := num_nodes self;
     num_iters := num_iters self; pumping := pumping self; init_sol := sol;
     solution := solution self; originals := originals self; coeffs := coeffs self;
     elapsed_time := elapsed_time self; desc := desc self; label := label self |}.

Definition setSolution (sol : array) (self : t) : t :=
  {| dt := dt self; dx := dx self; order := order self; num_nodes := num_nodes self;
     num_iters := num_iters self; pumping := pumping self; init_sol := init_sol self;
     solution := Some sol; originals := originals self; coeffs := coeffs self;
     elapsed_time := elapsed_time self; desc := desc self; label := label self |}.

Definition setElapsedTime (s : seconds) (self : t) : t :=
  {| dt := dt self; dx := dx self; order := order self; num_nodes := num_nodes self;
     num_iters := num_iters self; pumping := pumping self; init_sol := init_sol self;
     solution := solution self; originals := originals self; coeffs := coeffs self;
     elapsed_time := s; desc := desc self; label := label self |}.

(** The remaining attribute writes of [restore]. *)
Definition set_desc (s : string) (self : t) : t :=
  {| dt := dt self; dx := dx self; order := order self; num_nodes := num_nodes self;
     num_iters := num_iters self; pumping := pumping self; init_sol := init_sol self;
     solution := solution self; originals := originals self; coeffs := coeffs self;
     elapsed_time := elapsed_time self; desc := Some s; label := label self |}.

Definition set_label (s : string) (self : t) : t :=
  {| dt := dt self; dx := dx self; order := order self; num_nodes := num_nodes self;
     num_iters := num_iters self; pumping := pumping self; init_sol := init_sol self;
     solution := solution self; originals := originals self; coeffs := coeffs self;
     elapsed_time := elapsed_time self; desc := desc self; label := Some s |}.

Definition set_coeffs (c : ndarray float) (self : t) : t :=
  {| dt := dt self; dx := dx self; order := order self; num_nodes := num_nodes self;
     num_iters := num_iters self; pumping := pumping self; init_sol := init_sol self;
     solution := solution self; originals := originals self; coeffs := c;
     elapsed_time := elapsed_time self; desc := desc self; label := label self |}.

Definition set_originals (o : gmap string float) (self : t) : t :=
  {| dt := dt self; dx := dx self; order := order self; num_nodes := num_nodes self;
     num_iters := num_iters self; pumping := pumping self; init_sol := init_sol self;
     solution := solution self; originals := o; coeffs := coeffs self;
     elapsed_time := elapsed_time self; desc := desc self; label := label self |}.

(** The curves that [visualize] computes and hands to the plotting calls;
    the drawing itself is matplotlib's and is not embedded. *)
Record curves : Type := {
  x_nodes : ndarray float;
  p_curve : ndarray float;
  u_curve : ndarray float;
  n_curve : ndarray float;
}.

Definition visualize (self : t) : result curves :=
  nn ← Float.of_int (num_nodes self);
  x ← np.arange 0.0%float (dx self * nn)%float (dx self);
  let p := call1 (pumping self) x in
  sol ← match solution self with
        | Some s => Ok s
        | None => Raise AttributeError
        end;
  let u := density sol in
  c11 ← np.item (coeffs self) 11;
  c11_p ← np.mul c11 p;
  c12 ← np.item (coeffs self) 12;
  c13 ← np.item (coeffs self) 13;
  c13_u ← np.mul c13 u;
  denominator ← np.add c12 c13_u;
  n ← np.div c11_p denominator;
  Ok {| x_nodes := x; p_curve := p; u_curve := u; n_curve := n |}.

(** A method that mutates [self] and may raise half-way: the object keeps
    the writes made before the exception. *)
Definition method (A : Type) : Type := t → result A * t.

#[global] Instance method_ret : MRet method := λ A a self, (Ok a, self).
#[global] Instance method_bind : MBind method := λ A B f m self,
  match m self with
  | (Ok a, self') => f a self'
  | (Raise e, self') => (Raise e, self')
  end.

Definition lift {A} (r : result A) : method A := λ self, (r, self).
Definition assign (f : t → t) : method unit := λ self, (Ok (), f self).

(** [filename if filename else str(date).replace(' ', '_') + '.mat'];
    [date] is the text of the time stamp. *)
Definition file_name (filename : option string) (date : string) : string :=
  match filename with
  | Some f => if decide (f = "") then (replace_spaces date ++ ".mat")%string else f
  | None => (replace_spaces date ++ ".mat")%string
  end.

(** The dictionary is complete before [savemat] is called: an exception of
    [getPumping] leaves the file system alone. *)
Definition store (self : t) (fs : sio.filesystem) (filename : option string)
    (label desc : string) (date : string) : result unit * sio.filesystem :=
  let filename := file_name filename date in
  match getPumping self with
  | Raise e => (Raise e, fs)
  | Ok p =>
      sio.savemat fs filename
        {| sio.desc := Some desc;
           sio.dimlesses := Some (coeffs self);
           sio.elapsed_time := Some (elapsed_time self);
           sio.label := Some label;
           sio.originals := Some (originals self);
           sio.pumping := Some p;
           sio.solution := Some (solution self) |}
  end.

Definition restore (fs : sio.filesystem) (filename : string) : method unit :=
  matfile ← lift (sio.loadmat fs filename);
  d ← lift (sio.var (sio.m_desc matfile) "desc");
  assign (set_desc (match d with [] => "" | s :: _ => s end));;
  c ← lift (sio.var (sio.m_dimlesses matfile) "dimlesses");
  assign (set_coeffs (np.T c));;
  e ← lift (sio.var (sio.m_elapsed_time matfile) "elapsed_time");
  assign (setElapsedTime (SecondsArray e));;
  l ← lift (sio.var (sio.m_label matfile) "label");
  assign (set_label (match l with [] => "" | s :: _ => s end));;
  assign (set_originals ∅);;
  s ← lift (sio.var (sio.m_solution matfile) "solution");
  assign (setSolution (array_T s)).

End Solution.

(** ** The models and the Problem factory *)

(** The solver classes of [nls/solver.py] are not part of the sources; a
    model records which of them is bound to its solution.  [solve] only
    delegates to that solver. *)
Inductive Solver : Type :=
| Solver1D
| Solver2D.

Record Model : Type := { solution : Solution.t; solver : Solver }.

(** The keyword arguments of the factory, one field per recognised key;
    [None] is an absent key. *)
Module kw.

(** [u0] is a Python scalar, of type int, float or complex, or a field. *)
Inductive scalar : Type :=
| Int (z : Z)
| Float (f : float)
| Cplx (c : complex).

Inductive u0_value : Type :=
| Scalar (s : scalar)
| Field (a : array).

Record t : Type := {
  model : option string;
  dx : option float;
  dt : option float;
  t0 : option float;
  u0 : option u0_value;
  order : option Z;
  pumping : option Pumping;
  num_nodes : option Z;
  num_iters : option Z;
  original_params : option (gmap string float);
}.

Definition get {A} (v : option A) (key : string) : result A :=
  match v with
  | Some a => Ok a
  | None => Raise (KeyError key)
  end.

End kw.

(** [u0 * ones] for a Python scalar [u0]: an int is converted to float64,
    a complex makes the product complex128. *)
Definition scalar_times (u0 : kw.scalar) (ones : ndarray float) : result array :=
  match u0 with
  | kw.Int z =>
      f ← Float.of_int z;
      Ok (FloatArray (NdArray (shape ones) ((λ o, f * o)%float <$> data ones)))
  | kw.Float f =>
      Ok (FloatArray (NdArray (shape ones) ((λ o, f * o)%float <$> data ones)))
  | kw.Cplx c =>
      Ok (ComplexArray (NdArray (shape ones) ((λ o, cmul c (Complex o 0)) <$> data ones)))
  end.

(** The constructors of [Model1D] and [Model2D], on the keys they read;
    [u0] is the field that the factory has put under the key by then. *)
Definition Model1D (kwargs : kw.t) (u0 : array) : result Model :=
  dt ← kw.get (kw.dt kwargs) "dt";
  dx ← kw.get (kw.dx kwargs) "dx";
  order ← kw.get (kw.order kwargs) "order";
  num_nodes ← kw.get (kw.num_nodes kwargs) "num_nodes";
  num_iters ← kw.get (kw.num_iters kwargs) "num_iters";
  pumping ← kw.get (kw.pumping kwargs) "pumping";
  originals ← kw.get (kw.original_params kwargs) "original_params";
  solution ← Solution.__init__ dt dx num_nodes order num_iters pumping originals u0;
  Ok {| solution := solution; solver := Solver1D |}.

Definition Model2D (kwargs : kw.t) (u0 : array) : result Model :=
  dt ← kw.get (kw.dt kwargs) "dt";
  dx ← kw.get (kw.dx kwargs) "dx";
  order ← kw.get (kw.order kwargs) "order";
  num_nodes ← kw.get (kw.num_nodes kwargs) "num_nodes";
  num_iters ← kw.get (kw.num_iters kwargs) "num_iters";
  pumping ← kw.get (kw.pumping kwargs) "pumping";
  originals ← kw.get (kw.original_params kwargs) "original_params";
  solution ← Solution.__init__ dt dx num_nodes order num_iters pumping originals u0;
  Ok {| solution := solution; solver := Solver2D |}.

Module Problem.

Section factory.

(** [GaussianPumping()], the default profile of [nls/pumping.py]. *)
Variable GaussianPumping : Pumping.

(** The defaults that a fabricate method fills in. *)
Definition defaults (order num_nodes num_iters : Z) (kwargs : kw.t) : kw.t :=
  {| kw.model := kw.model kwargs;
     kw.dx := Some (default 1.0e-1%float (kw.dx kwargs));
     kw.dt := Some (default 1.0e-3%float (kw.dt kwargs));
     kw.t0 := Some (default 0.0e+0%float (kw.t0 kwargs));
     kw.u0 := Some (default (kw.Scalar (kw.Float 1.0e-1%float)) (kw.u0 kwargs));
     kw.order := Some (default order (kw.order kwargs));
     kw.pumping := Some (default GaussianPumping (kw.pumping kwargs));
     kw.num_nodes := Some (default num_nodes (kw.num_nodes kwargs));
     kw.num_iters := Some (default num_iters (kw.num_iters kwargs));
     kw.original_params := kw.original_params kwargs |}.

Definition fabricateModel1D (kwargs : kw.t) : result Model :=
  let kwargs := defaults 5 1000 100000 kwargs in
  u0 ← kw.get (kw.u0 kwargs) "u0";
  num_nodes ← kw.get (kw.num_nodes kwargs) "num_nodes";
  u0 ← match u0 with
       | kw.Scalar s => ones ← np.ones num_nodes; scalar_times s ones
       | kw.Field a => Ok a
       end;
  Model1D kwargs u0.

Definition fabricateModel2D (kwargs : kw.t) : result Model :=
  let kwargs := defaults 3 40 1000 kwargs in
  u0 ← kw.get (kw.u0 kwargs) "u0";
  num_nodes ← kw.get (kw.num_nodes kwargs) "num_nodes";
  u0 ← match u0 with
       | kw.Scalar s => ones ← np.ones2 num_nodes; scalar_times s ones
       | kw.Field a => Ok a
       end;
  Model2D kwargs u0.

(** The dispatcher.  A ['params'] entry is popped and dropped; the
    statement that is meant to default the model kind reads
    [kwargs['model']] when the key is absent, which is a [KeyError]. *)
Definition model (kwargs : kw.t) : result Model :=
  match kw.model kwargs with
  | None => Raise (KeyError "model")
  | Some m =>
      if decide (m = "1d" ∨ m = "default") then fabricateModel1D kwargs
      else if decide (m = "2d") then fabricateModel2D kwargs
      else Raise (Exception "Unknown model passed!")
  end.

End factory.

End Problem.

(** ** Call sequences on the pumping profile *)

(** A caller alternates [setPumping] and [getPumping]; [run] replays such a
    history and collects what each [getPumping] returned. *)
Inductive call : Type :=
| SetPumping (p : Pumping)
| GetPumping.

Fixpoint run (history : list call) (self : Solution.t)
  : Solution.t * list (result (ndarray float)) :=
  match history with
  | [] => (self, [])
  | SetPumping p :: rest => run rest (Solution.setPumping p self)
  | GetPumping :: rest =>
      let r := Solution.getPumping self in
      let '(self', out) := run rest self in
      (self', r :: out)
  end.

(** ** The reservoir relation *)

(** The reservoir density at one node, from the pumping intensity [p] and
    the condensate density [u] there. *)
Definition reservoir (c11 c12 c13 p u : float) : float :=
  (c11 * p / (c12 + c13 * u))%float.

(** The attributes that [restore] leaves alone. *)
Definition same_grid (a b : Solution.t) : Prop :=
  Solution.dt b = Solution.dt a ∧
  Solution.dx b = Solution.dx a ∧
  Solution.order b = Solution.order a ∧
  Solution.num_nodes b = Solution.num_nodes a ∧
  Solution.num_iters b = Solution.num_iters a ∧
  Solution.pumping b = Solution.pumping a ∧
  Solution.init_sol b = Solution.init_sol a.

(** A vector, whatever its layout: a scalar, a line, a row or a column. *)
Definition is_vector (s : Shape) : Prop :=
  match s with
  | Sh0 | Sh1 _ => True
  | Sh2 r c => r = 1 ∨ c = 1
  end.

(** The shape in which [restore] hands back a stored array: written with
    rank two, then transposed.  A line of n values comes back as the
    column n x 1, unless it is empty: then it comes back as 0 x 0. *)
Definition restored_shape (s : Shape) : Shape :=
  match s with
  | Sh0 => Sh2 1 1
  | Sh1 0 => Sh2 0 0
  | Sh1 n => Sh2 n 1
  | Sh2 r c => Sh2 c r
  end.

(** ** Sample objects *)

(** A working directory without subdirectories, empty at first: once
    every leading [./] is dropped, a name is the file of that name, and
    cannot be opened when it is empty, a dot or two, or holds a slash. *)
Fixpoint has_slash (s : string) : bool :=
  match s with
  | EmptyString => false
  | String c s' => if decide (c = "/"%char) then true else has_slash s'
  end.

Fixpoint plain_name (name : string) : result string :=
  match name with
  | String "."%char (String "/"%char rest) => plain_name rest
  | _ =>
      if decide (name = "" ∨ name = "." ∨ name = "..") then Raise IOError
      else if has_slash name then Raise IOError
      else Ok name
  end.

Definition working_directory : sio.filesystem :=
  {| sio.locate := λ _, plain_name; sio.files := ∅ |}.

(** The physical parameters of [solve2d.py]. *)
Definition solve2d_params : gmap string float :=
  <["R" := 0.05%float]> (<["gamma" := 0.566%float]> (<["g" := 1.0e-3%float]>
  (<["tilde_g" := 0.011%float]> (<["gamma_R" := 10%float]> ∅)))).

(** A profile that returns the coordinate it is asked at (the first one on
    a mesh), so that a sample shows the grid itself. *)
Definition coordinate : Pumping := {| at1 := λ x, x; at2 := λ x y, x |}.

(** A flat-top profile of intensity 3. *)
Definition flat_top : Pumping := {| at1 := λ _, 3%float; at2 := λ _ _, 3%float |}.

Definition uniform (n : nat) : array := FloatArray (NdArray (Sh1 n) (replicate n 0.1%float)).

(** Four nodes half a unit apart, with the grid itself as the profile. *)
Definition line4 : Solution.t :=
  {| Solution.dt := 0.001; Solution.dx := 0.5; Solution.order := 5;
     Solution.num_nodes := 4; Solution.num_iters := 10;
     Solution.pumping := coordinate; Solution.init_sol := uniform 4;
     Solution.solution :=
       Some (ComplexArray (NdArray (Sh1 4)
               [Complex 1 2; Complex 0 1; Complex 3 0; Complex 0.5 0.5]));
     Solution.originals := solve2d_params;
     Solution.coeffs := NdArray (Sh1 23)
       [1; 1; 0.05 / (4 * 0.011); 0.283; 1; 1; 0; 0; 0; 0;
        0; 2 * 0.011 / 10; 1; 5; 0; 0; 0; 0; 0; 0; 0; 0; 0]%float;
     Solution.elapsed_time := Seconds 1.5;
     Solution.desc := None; Solution.label := None |}.

(** Three nodes with an initial field of five values. *)
Definition mismatched : Solution.t :=
  {| Solution.dt := 0.001; Solution.dx := 1; Solution.order := 5;
     Solution.num_nodes := 3; Solution.num_iters := 10;
     Solution.pumping := coordinate; Solution.init_sol := uniform 5;
     Solution.solution := None; Solution.originals := solve2d_params;
     Solution.coeffs := np.zeros 23; Solution.elapsed_time := Seconds 0;
     Solution.desc := None; Solution.label := None |}.

(** A single node: its field length is both [num_nodes] and its square. *)
Definition single : Solution.t :=
  {| Solution.dt := 0.001; Solution.dx := 1; Solution.order := 5;
     Solution.num_nodes := 1; Solution.num_iters := 10;
     Solution.pumping := coordinate; Solution.init_sol := uniform 1;
     Solution.solution := None; Solution.originals := solve2d_params;
     Solution.coeffs := np.zeros 23; Solution.elapsed_time := Seconds 0;
     Solution.desc := None; Solution.label := None |}.

(** Two by two nodes with a current field that is not symmetric. *)
Definition square2 : Solution.t :=
  {| Solution.dt := 0.001; Solution.dx := 0.5; Solution.order := 3;
     Solution.num_nodes := 2; Solution.num_iters := 10;
     Solution.pumping := flat_top; Solution.init_sol := uniform 4;
     Solution.solution := Some (FloatArray (NdArray (Sh2 2 2) [1; 2; 3; 4]%float));
     Solution.originals := solve2d_params;
     Solution.coeffs := np.zeros 23; Solution.elapsed_time := Seconds 0;
     Solution.desc := None; Solution.label := None |}.

(** The same parameters with a vanishing interaction strength, and with
    the decay rate [gamma] left out as well. *)
Definition degenerate_params : gmap string float := <["tilde_g" := 0.0%float]> solve2d_params.



(** The keys of the physical parameters. *)
Definition physical_keys : list string := ["R"; "gamma"; "g"; "tilde_g"; "gamma_R"].

(** The keyword arguments of [solve2d.py], a flat-top profile standing in
    for its Gaussian one. *)
Definition solve2d_kwargs : kw.t :=
  {| kw.model := Some "2d"; kw.dx := Some 1.0e-1%float; kw.dt := Some 1.0e-3%float;
     kw.t0 := Some 0.0%float; kw.u0 := Some (kw.Scalar (kw.Float 0.1%float)); kw.order := Some 5%Z;
     kw.pumping := Some flat_top; kw.num_nodes := Some 40%Z;
     kw.num_iters := Some 10000%Z; kw.original_params := Some solve2d_params |}.

(** A method keeps the grid when every state it can end in, by return or
    by exception, has the grid of the state it started in. *)
Definition keeps_grid {A} (m : Solution.method A) : Prop :=
  ∀ self, same_grid self (m self).2.

(** Keyword arguments that leave all but the node count, the parameters
    and an integer [u0] to the defaults. *)
Definition line_kwargs : kw.t :=
  {| kw.model := Some "1d"; kw.dx := None; kw.dt := None; kw.t0 := None;
     kw.u0 := Some (kw.Scalar (kw.Int 2)); kw.order := None; kw.pumping := None;
     kw.num_nodes := Some 4%Z; kw.num_iters := None;
     kw.original_params := Some solve2d_params |}.

(** ** The initial field *)

(** The field that the factory is to hand to the model: a field given as
    [u0] itself, and for a scalar [u0] the uniform field with the value
    [u0 * 1.0] at every node of the grid shape. *)
Definition initial_field (u0 : kw.u0_value) (s : Shape) : result array :=
  match u0 with
  | kw.Scalar (kw.Int z) =>
      f ← Float.of_int z;
      Ok (FloatArray (NdArray s (replicate (np.size s) (f * 1)%float)))
  | kw.Scalar (kw.Float f) =>
      Ok (FloatArray (NdArray s (replicate (np.size s) (f * 1)%float)))
  | kw.Scalar (kw.Cplx c) =>
      Ok (ComplexArray (NdArray s (replicate (np.size s) (cmul c (Complex 1 0)))))
  | kw.Field a => Ok a
  end.

(** ** class AbstractModel *)

(** [solve] hands over to the solver and is left out with it.  [store]
    and [restore] use the model object only for the attributes [desc],
    [label] and [originals], which [restore] creates. *)
Module AbstractModel.

Record t : Type := {
  model : Model;
  desc : option string;
  label : option string;
  originals : option (gmap string float);
}.

(** [savemat] on the dictionary of the three keys [desc], [label] and
    [originals], the last one with the empty dictionary. *)
Definition store (self : t) (fs : sio.filesystem) (filename : option string)
    (label desc : string) (date : string) : result unit * sio.filesystem :=
  let filename := Solution.file_name filename date in
  sio.savemat fs filename
    {| sio.desc := Some desc;
       sio.dimlesses := None;
       sio.elapsed_time := None;
       sio.label := Some label;
       sio.originals := Some ∅;
       sio.pumping := None;
       sio.solution := None |}.

Definition restore (fs : sio.filesystem) (filename : string) (self : t)
  : result unit * t :=
  match sio.loadmat fs filename with
  | Raise e => (Raise e, self)
  | Ok matfile =>
      match sio.var (sio.m_desc matfile) "desc" with
      | Raise e => (Raise e, self)
      | Ok d =>
          let self := {| model := model self;
                         desc := Some (match d with [] => "" | s :: _ => s end);
                         label := label self; originals := originals self |} in
          match sio.var (sio.m_label matfile) "label" with
          | Raise e => (Raise e, self)
          | Ok l =>
              (Ok (), {| model := model self; desc := desc self;
                         label := Some (match l with [] => "" | s :: _ => s end);
                         originals := Some ∅ |})
          end
      end
  end.

End AbstractModel.

(** Whether a string holds a blank. *)
Fixpoint has_space (s : string) : bool :=
  match s with
  | EmptyString => false
  | String c s' => if decide (c = " "%char) then true else has_space s'
  end.

(** ** More sample objects *)

(** Three by three nodes one unit apart, with the grid itself as the
    profile. *)
Definition mesh3 : Solution.t :=
  {| Solution.dt := 0.001; Solution.dx := 1; Solution.order := 3;
     Solution.num_nodes := 3; Solution.num_iters := 10;
     Solution.pumping := coordinate; Solution.init_sol := uniform 9;
     Solution.solution := None; Solution.originals := solve2d_params;
     Solution.coeffs := np.zeros 23; Solution.elapsed_time := Seconds 0;
     Solution.desc := None; Solution.label := None |}.

(** Three nodes a tenth apart with a field of three values. *)
Definition tenths : Solution.t :=
  {| Solution.dt := 0.001; Solution.dx := 0.1; Solution.order := 5;
     Solution.num_nodes := 3; Solution.num_iters := 10;
     Solution.pumping := flat_top; Solution.init_sol := uniform 3;
     Solution.solution := Some (uniform 3); Solution.originals := solve2d_params;
     Solution.coeffs := np.zeros 23; Solution.elapsed_time := Seconds 0;
     Solution.desc := None; Solution.label := None |}.

(** A negative node count, once with the default scalar [u0] and once
    with a field of five values. *)
Definition negative_kwargs : kw.t :=
  {| kw.model := Some "1d"; kw.dx := None; kw.dt := None; kw.t0 := None;
     kw.u0 := None; kw.order := None; kw.pumping := None;
     kw.num_nodes := Some (-3)%Z; kw.num_iters := None;
     kw.original_params := Some solve2d_params |}.

Definition field_kwargs : kw.t :=
  {| kw.model := Some "1d"; kw.dx := None; kw.dt := None; kw.t0 := None;
     kw.u0 := Some (kw.Field (uniform 5)); kw.order := None; kw.pumping := None;
     kw.num_nodes := Some (-3)%Z; kw.num_iters := None;
     kw.original_params := Some solve2d_params |}.

(** A model object around the four-node solution. *)
Definition model_object : AbstractModel.t :=
  {| AbstractModel.model := {| solution := line4; solver := Solver1D |};
     AbstractModel.desc := None; AbstractModel.label := None;
     AbstractModel.originals := None |}.

(** ** Proof automation *)

(** Splits a successful chain of binds into its successful steps. *)
Ltac bind_inv H :=
  repeat match type of H with
  | mbind _ ?m = Ok _ =>
      let E := fresh "E" in
      destruct m eqn:E; cbn [mbind result_bind] in H; [|discriminate H]
  | match ?m with _ => _ end = Ok _ =>
      let E := fresh "E" in
      destruct m eqn:E; try discriminate H
  end.


(** * Properties *)

(** ** Lists and arrays *)

Lemma bind_seq_lookup {A B} (F : nat → list B) (g : A → list B) (l : list A) (k : nat) :
  (∀ j x, l !! j = Some x → F (k + j) = g x) →
  (j ← seq k (length l); F j) = l ≫= g.
Proof.
  revert k. induction l as [|x l IH]; intros k H; [done|].
  simpl. f_equal.
  - rewrite <- (H 0 x eq_refl). f_equal. lia.
  - apply IH. intros j y Hj. rewrite <- (H (S j) y Hj). f_equal. lia.
Qed.

Lemma bind_singleton {A B} (f : A → B) (l : list A) : (l ≫= λ x, [f x]) = f <$> l.
Proof. induction l; simpl; [done|]. by f_equal. Qed.

(** Transposing a row or a column leaves the buffer as it is. *)
Lemma T_row {A} (a : ndarray A) n :
  shape a = Sh2 1 n → length (data a) = n → np.T a = NdArray (Sh2 n 1) (data a).
Proof.
  intros Hs Hl. unfold np.T. rewrite Hs. f_equal.
  rewrite <- Hl at 1.
  rewrite (bind_seq_lookup _ (λ x, [x]) (data a) 0).
  - rewrite bind_singleton. apply list_fmap_id.
  - intros j x Hj. simpl. rewrite app_nil_r, Hj. done.
Qed.

Lemma T_column {A} (a : ndarray A) n :
  shape a = Sh2 n 1 → length (data a) = n → np.T a = NdArray (Sh2 1 n) (data a).
Proof.
  intros Hs Hl. unfold np.T. rewrite Hs. f_equal. simpl.
  rewrite app_nil_r. rewrite <- Hl.
  rewrite (bind_seq_lookup _ (λ x, [x]) (data a) 0).
  - rewrite bind_singleton. apply list_fmap_id.
  - intros j x Hj. simpl. replace (j * 1 + 0) with j by lia. by rewrite Hj.
Qed.

Lemma bdim_one n : np.bdim 1 n = Ok n.
Proof. unfold np.bdim. repeat case_decide; congruence. Qed.

Lemma bdim_same n : np.bdim n n = Ok n.
Proof. unfold np.bdim. case_decide; congruence. Qed.

(** A one-element operand is combined with every element of a line. *)
Lemma broadcast_scalar {A B C} (f : A → B → C) s (c : A) (ys : list B) m :
  s = Sh0 ∨ s = Sh1 1 → length ys = m →
  np.broadcast f (NdArray s [c]) (NdArray (Sh1 m) ys) = Ok (NdArray (Sh1 m) (f c <$> ys)).
Proof.
  intros Hs Hm. unfold np.broadcast.
  assert (np.view2 s = (1, 1)) as Hv by (by destruct Hs as [-> | ->]).
  assert (np.rank s `max` 1 = 1) as Hr by (by destruct Hs as [-> | ->]).
  cbn [shape data np.view2 np.rank fst snd]. rewrite Hv, Hr. cbn [fst snd].
  rewrite bdim_same, bdim_one. cbn [mbind result_bind np.bshape]. do 2 f_equal.
  cbn [seq mbind list_bind]. rewrite app_nil_r. subst m.
  rewrite (bind_seq_lookup _ (λ y, [f c y]) ys 0); [apply bind_singleton|].
  intros j y Hj. unfold np.bindex. rewrite Hv. cbn [fst snd np.view2].
  rewrite !(decide_True (P := 1 = 1)) by done.
  replace (0 * 1 + 0) with 0 by lia. cbn [lookup list_lookup].
  destruct (decide (length ys = 1)) as [Hl|Hl].
  - destruct ys as [|y' [|]]; cbn in Hl; try lia. destruct j; simplify_eq/=. done.
  - replace (0 * length ys + (0 + j)) with j by lia. by rewrite Hj.
Qed.

(** Two lines of one length are combined element by element. *)
Lemma broadcast_vectors {A B C} (f : A → B → C) (xs : list A) (ys : list B) m :
  length xs = m → length ys = m →
  np.broadcast f (NdArray (Sh1 m) xs) (NdArray (Sh1 m) ys)
  = Ok (NdArray (Sh1 m) (zip_with f xs ys)).
Proof.
  intros Hx Hy. unfold np.broadcast. cbn [shape data np.view2 np.rank fst snd].
  rewrite !bdim_same. cbn [mbind result_bind np.bshape Nat.max]. do 2 f_equal.
  cbn [seq mbind list_bind]. rewrite app_nil_r.
  rewrite zip_with_zip, <- bind_singleton.
  assert (length (zip xs ys) = m) as <- by (rewrite length_zip; lia).
  apply bind_seq_lookup. intros j [x y] Hj.
  apply lookup_zip_with_Some in Hj as (x' & y' & [= <- <-] & Hxj & Hyj).
  unfold np.bindex. cbn [fst snd np.view2]. rewrite decide_True by done.
  case_decide as Hl.
  - assert (j = 0) as -> by (apply lookup_lt_Some in Hxj; rewrite length_zip in Hl; lia).
    cbn [Nat.mul Nat.add]. by rewrite Hxj, Hyj.
  - replace (0 * length (zip xs ys) + (0 + j)) with j by lia. by rewrite Hxj, Hyj.
Qed.

(** ** Coefficient derivation *)

(** C4, as the code has it: when the three denominators [4 * tilde_g],
    [gamma_R] and [gamma_R * g] are not zero, the constructor returns a
    Solution whose coefficient vector has 23 slots, the formulas of the
    condensate and reservoir equations in slots 0-5 and 10-14 and zero
    everywhere else; with [R = 0.05] and [tilde_g = 0.011] slot 2 is
    [0.05 / (4 * 0.011)], and with [gamma = 0.566] slot 3 is [0.283]. *)
Theorem coefficients_from_parameters dt dx nn order ni p (originals : gmap string float)
    init R gamma g tg gR :
  originals !! "R" = Some R →
  originals !! "gamma" = Some gamma →
  originals !! "g" = Some g →
  originals !! "tilde_g" = Some tg →
  originals !! "gamma_R" = Some gR →
  (4.0 * tg =? 0)%float = false →
  (gR =? 0)%float = false →
  (gR * g =? 0)%float = false →
  ∃ self,
    Solution.__init__ dt dx nn order ni p originals init = Ok self ∧
    Solution.coeffs self = NdArray (Sh1 23)
      [1; 1; R / (4 * tg); gamma * Solution.t0 / 2; 1; 1; 0; 0; 0; 0;
       0; 2 * tg * Solution.t0 / gR; 1; R / (gR * g); 0;
       0; 0; 0; 0; 0; 0; 0; 0]%float ∧
    Solution.t0 = 1%float ∧
    (R = 0.05%float → tg = 0.011%float →
     data (Solution.coeffs self) !! 2 = Some (0.05 / (4 * 0.011))%float) ∧
    (gamma = 0.566%float → data (Solution.coeffs self) !! 3 = Some 0.283%float).
Proof.
  intros HR Hgamma Hg Htg HgR H2 H11 H13.
  unfold Solution.__init__, getitem, Float.truediv.
  rewrite HR, Htg, Hgamma, HgR, Hg. cbn [mbind result_bind].
  rewrite H2. cbn [mbind result_bind]. rewrite H11. cbn [mbind result_bind].
  rewrite H13. cbn [mbind result_bind].
  eexists. split; [reflexivity|]. split; [reflexivity|]. split; [reflexivity|].
  split.
  - intros -> ->. reflexivity.
  - intros ->. reflexivity.
Qed.

(** The parameters of [solve2d.py]: slot 2 and slot 3 of the vector. *)
Lemma coefficients_from_parameters_witness :
  ∃ self,
    Solution.__init__ 0.001 0.1 40 5 10000 flat_top solve2d_params (uniform 40) = Ok self ∧
    data (Solution.coeffs self) !! 2 = Some (0.05 / (4 * 0.011))%float ∧
    data (Solution.coeffs self) !! 3 = Some 0.283%float.
Proof.
  destruct (coefficients_from_parameters 0.001 0.1 40 5 10000 flat_top solve2d_params
              (uniform 40) 0.05 0.566 1.0e-3 0.011 10)
    as (self & Hinit & _ & _ & H2 & H3); try reflexivity.
  exists self. split; [exact Hinit|]. split; [apply H2 | apply H3]; reflexivity.
Defined.

(** C4 as worded fails: a vanishing [tilde_g] makes the first division
    raise, and no coefficient vector is produced. *)
Lemma zero_tilde_g_raises :
  degenerate_params !! "tilde_g" = Some 0%float ∧
  Solution.__init__ 0.001 0.1 40 5 10000 flat_top degenerate_params (uniform 40)
  = Raise ZeroDivisionError.
Proof. split; reflexivity. Qed.

(** ** Missing parameters *)





(** ** Sampling the pumping profile *)

Lemma linspace_ok a b n :
  (0 ≤ n)%Z →
  ∃ y, np.linspace a b n = Ok y ∧ shape y = Sh1 (Z.to_nat n) ∧
       length (data y) = Z.to_nat n.
Proof.
  intros Hn. unfold np.linspace.
  destruct (Z.ltb_spec n 0) as [?|_]; [lia|].
  eexists. split; [reflexivity|]. split; [reflexivity|]. cbn [data].
  repeat case_decide; repeat case_match;
    rewrite ?length_insert, length_fmap, length_seq; reflexivity.
Qed.

(** With more than one sample the last one is the end point itself. *)
Lemma linspace_last a b n y :
  (1 < n)%Z → np.linspace a b n = Ok y → last (data y) = Some b.
Proof.
  intros Hn. unfold np.linspace.
  destruct (Z.ltb_spec n 0) as [?|_]; [lia|]. intros [= <-]. cbn [data].
  rewrite decide_True by lia. rewrite decide_True by lia.
  rewrite last_lookup, length_insert.
  replace (Init.Nat.pred _) with (Z.to_nat n - 1).
  - apply list_lookup_insert_eq.
    case_match; rewrite length_fmap, length_seq; lia.
  - case_match; rewrite length_fmap, length_seq; lia.
Qed.

Lemma radial_sample_ok p n dx nf :
  (0 ≤ n)%Z → Float.of_int n = Ok nf →
  ∃ a, Solution.radial_sample p n dx = Ok a ∧ shape a = Sh1 (Z.to_nat n) ∧
       length (data a) = Z.to_nat n.
Proof.
  intros Hn Hnf. unfold Solution.radial_sample. rewrite Hnf. cbn [mbind result_bind].
  destruct (linspace_ok 0 (nf * dx) n Hn) as (y & -> & Hs & Hl).
  cbn [mbind result_bind]. eexists. split; [reflexivity|]. unfold call1. cbn [shape data].
  by rewrite length_fmap.
Qed.

Lemma length_join_replicate {A} n (l : list A) :
  length (mjoin (replicate n l)) = n * length l.
Proof. induction n; simpl; [done|]. rewrite length_app. lia. Qed.

Lemma length_bind_replicate {A} n (l : list A) :
  length (x ← l; replicate n x) = length l * n.
Proof.
  induction l as [|a l IH]; [done|].
  rewrite bind_cons, length_app, length_replicate, IH. simpl. lia.
Qed.

(** On a non-negative node count the mesh branch returns the profile at
    the [n * n] points of the centred mesh, row after row. *)
Lemma cartesian_sample_ok p n dx nf :
  (0 ≤ n)%Z → Float.of_int n = Ok nf →
  ∃ x, np.linspace (- (nf * dx / 2)) (nf * dx / 2) n = Ok x ∧
       Solution.cartesian_sample p n dx
       = Ok (NdArray (Sh1 (Z.to_nat (n ^ 2)))
               (zip_with (at2 p) (mjoin (replicate (Z.to_nat n) (data x)))
                                 (xi ← data x; replicate (Z.to_nat n) xi))) ∧
       length (zip_with (at2 p) (mjoin (replicate (Z.to_nat n) (data x)))
                                 (xi ← data x; replicate (Z.to_nat n) xi))
       = Z.to_nat (n ^ 2).
Proof.
  intros Hn Hnf. unfold Solution.cartesian_sample. rewrite Hnf. cbn [mbind result_bind].
  destruct (linspace_ok (- (nf * dx / 2)) (nf * dx / 2) n Hn) as (x & Hx & Hs & Hl).
  exists x. split; [exact Hx|]. rewrite Hx. cbn [mbind result_bind].
  assert (Z.to_nat (n ^ 2) = Z.to_nat n * Z.to_nat n) as Hsq.
  { replace (n ^ 2)%Z with (n * n)%Z by lia. apply Z2Nat.inj_mul; lia. }
  unfold np.meshgrid2, call2, np.reshape. cbn [fst snd shape data np.size].
  rewrite Hl. rewrite decide_True by lia. split; [reflexivity|].
  rewrite length_zip_with, length_join_replicate, length_bind_replicate. lia.
Qed.

(** C2, as the code has it: a field whose length is [num_nodes] squared is
    sampled on the 2D mesh, a field of any other length (that of
    [num_nodes] included, unless it is its own square) on the 1D radial
    line, and no field length makes [getPumping] raise. *)
Theorem getPumping_dimension (self : Solution.t) (l : nat) :
  np.len (ashape (Solution.init_sol self)) = Ok l →
  (Z.of_nat l = (Solution.num_nodes self ^ 2)%Z →
   Solution.getPumping self
   = Solution.cartesian_sample (Solution.pumping self) (Solution.num_nodes self)
       (Solution.dx self)) ∧
  (Z.of_nat l ≠ (Solution.num_nodes self ^ 2)%Z →
   Solution.getPumping self
   = Solution.radial_sample (Solution.pumping self) (Solution.num_nodes self)
       (Solution.dx self)) ∧
  (∀ nf, (0 ≤ Solution.num_nodes self)%Z → Float.of_int (Solution.num_nodes self) = Ok nf →
   is_Ok (Solution.getPumping self)).
Proof.
  intros Hl. unfold Solution.getPumping. rewrite Hl. cbn [mbind result_bind].
  split; [|split].
  - intros Heq. by rewrite decide_True.
  - intros Hne. by rewrite decide_False.
  - intros nf Hn Hnf. case_decide.
    + destruct (cartesian_sample_ok (Solution.pumping self) _ (Solution.dx self) nf Hn Hnf)
        as (x & _ & -> & _). by eexists.
    + destruct (radial_sample_ok (Solution.pumping self) _ (Solution.dx self) nf Hn Hnf)
        as (a & -> & _). by eexists.
Qed.

(** Four nodes and a field of four values: the radial branch. *)
Lemma getPumping_dimension_witness :
  np.len (ashape (Solution.init_sol line4)) = Ok 4 ∧
  Z.of_nat 4 ≠ (Solution.num_nodes line4 ^ 2)%Z ∧
  Solution.getPumping line4 = Solution.radial_sample coordinate 4 0.5 ∧
  is_Ok (Solution.getPumping line4).
Proof.
  destruct (getPumping_dimension line4 4 eq_refl) as (_ & Hradial & Hok).
  split; [reflexivity|]. split; [discriminate|]. split.
  - apply Hradial. discriminate.
  - apply (Hok 4%float); [discriminate | reflexivity].
Defined.

(** C2 as worded fails: three nodes with a field of five values, neither
    3 nor 9, and [getPumping] returns the radial sample instead of
    raising. *)
Lemma mismatched_length_is_sampled :
  np.len (ashape (Solution.init_sol mismatched)) = Ok 5 ∧
  Solution.num_nodes mismatched = 3%Z ∧
  Solution.getPumping mismatched = Ok (NdArray (Sh1 3) [0; 1.5; 3]%float).
Proof. repeat split; reflexivity. Qed.

(** C9: whenever the field length equals [num_nodes] squared, also when
    it equals [num_nodes] itself, [getPumping] is the mesh branch; on a
    non-negative node count it returns the flattened mesh sample, of
    length [num_nodes] squared. *)
Theorem square_length_selects_mesh (self : Solution.t) (l : nat) :
  np.len (ashape (Solution.init_sol self)) = Ok l →
  Z.of_nat l = (Solution.num_nodes self ^ 2)%Z →
  Solution.getPumping self
  = Solution.cartesian_sample (Solution.pumping self) (Solution.num_nodes self)
      (Solution.dx self) ∧
  (∀ nf, (0 ≤ Solution.num_nodes self)%Z → Float.of_int (Solution.num_nodes self) = Ok nf →
   ∃ x a, np.linspace (- (nf * Solution.dx self / 2)) (nf * Solution.dx self / 2)
            (Solution.num_nodes self) = Ok x ∧
          Solution.getPumping self = Ok a ∧
          shape a = Sh1 l ∧ length (data a) = l ∧
          data a = zip_with (at2 (Solution.pumping self))
                     (mjoin (replicate (Z.to_nat (Solution.num_nodes self)) (data x)))
                     (xi ← data x; replicate (Z.to_nat (Solution.num_nodes self)) xi)).
Proof.
  intros Hl Heq.
  assert (Solution.getPumping self
          = Solution.cartesian_sample (Solution.pumping self) (Solution.num_nodes self)
              (Solution.dx self)) as Hget.
  { unfold Solution.getPumping. rewrite Hl. cbn [mbind result_bind].
    by rewrite decide_True. }
  split; [exact Hget|]. intros nf Hn Hnf.
  destruct (cartesian_sample_ok (Solution.pumping self) _ (Solution.dx self) nf Hn Hnf)
    as (x & Hx & Hs & Hlen).
  assert (Z.to_nat (Solution.num_nodes self ^ 2) = l) as Hsq by lia.
  exists x. eexists. split; [exact Hx|]. split; [by rewrite Hget, Hs|].
  cbn [shape data]. rewrite Hlen, Hsq. done.
Qed.

(** One node and a field of one value: the mesh branch samples at
    [-dx / 2], where the radial branch would sample at 0. *)
Lemma square_length_selects_mesh_witness :
  np.len (ashape (Solution.init_sol single)) = Ok 1 ∧
  Z.of_nat 1 = Solution.num_nodes single ∧
  Z.of_nat 1 = (Solution.num_nodes single ^ 2)%Z ∧
  Solution.getPumping single = Solution.cartesian_sample coordinate 1 1 ∧
  Solution.getPumping single = Ok (NdArray (Sh1 1) [(-0.5)%float]) ∧
  Solution.radial_sample coordinate 1 1 = Ok (NdArray (Sh1 1) [0%float]).
Proof.
  destruct (square_length_selects_mesh single 1 eq_refl eq_refl) as [Hmesh _].
  split; [reflexivity|]. split; [reflexivity|]. split; [reflexivity|].
  split; [exact Hmesh|]. split; reflexivity.
Defined.

(** ** Reading the profile after replacing it *)

(** Neither call touches the grid or the initial field. *)
Lemma run_keeps_grid (history : list call) (self : Solution.t) :
  Solution.num_nodes (run history self).1 = Solution.num_nodes self ∧
  Solution.dx (run history self).1 = Solution.dx self ∧
  Solution.init_sol (run history self).1 = Solution.init_sol self.
Proof.
  revert self. induction history as [|[p|] rest IH]; intros self; [done| |].
  - cbn [run]. destruct (IH (Solution.setPumping p self)) as (-> & -> & ->). done.
  - cbn [run]. specialize (IH self). destruct (run rest self) as [self' out]. exact IH.
Qed.

(** C7: after any history of [setPumping] and [getPumping] calls,
    [setPumping(p)] followed by [getPumping()] returns the sample of [p]
    over the grid of the solution, whatever profiles were set and read
    before: on a node count that is not negative, the values of [p] at
    the points [linspace(0, num_nodes * dx, num_nodes)] when the field
    length is not the square of the node count, and the values of [p] at
    the points of the mesh of [linspace(-num_nodes * dx / 2, num_nodes *
    dx / 2, num_nodes)] with itself, row after row, when it is. *)
Theorem getPumping_after_setPumping (history : list call) (self : Solution.t) (p : Pumping)
    (l : nat) (nf : float) :
  np.len (ashape (Solution.init_sol self)) = Ok l →
  (0 ≤ Solution.num_nodes self)%Z →
  Float.of_int (Solution.num_nodes self) = Ok nf →
  let n := Z.to_nat (Solution.num_nodes self) in
  let self' := Solution.setPumping p (run history self).1 in
  (Z.of_nat l ≠ (Solution.num_nodes self ^ 2)%Z →
   ∃ x, np.linspace 0 (nf * Solution.dx self) (Solution.num_nodes self) = Ok x ∧
        Solution.getPumping self' = Ok (NdArray (Sh1 n) (at1 p <$> data x))) ∧
  (Z.of_nat l = (Solution.num_nodes self ^ 2)%Z →
   ∃ x, np.linspace (- (nf * Solution.dx self / 2)) (nf * Solution.dx self / 2)
          (Solution.num_nodes self) = Ok x ∧
        Solution.getPumping self'
        = Ok (NdArray (Sh1 l)
                (zip_with (at2 p) (mjoin (replicate n (data x)))
                   (xi ← data x; replicate n xi)))).
Proof.
  intros Hl Hn Hnf n self'.
  destruct (run_keeps_grid history self) as (Hnodes & Hdx & Hinit).
  assert (Solution.getPumping self'
          = (if decide ((Solution.num_nodes self ^ 2)%Z = Z.of_nat l)
             then Solution.cartesian_sample p (Solution.num_nodes self) (Solution.dx self)
             else Solution.radial_sample p (Solution.num_nodes self) (Solution.dx self)))
    as Hget.
  { unfold Solution.getPumping, self'. cbn [Solution.setPumping Solution.init_sol
      Solution.num_nodes Solution.dx Solution.pumping].
    by rewrite Hnodes, Hdx, Hinit, Hl. }
  split.
  - intros Hne. rewrite Hget, decide_False by done.
    destruct (linspace_ok 0 (nf * Solution.dx self) _ Hn) as (x & Hx & Hs & _).
    exists x. split; [exact Hx|]. unfold Solution.radial_sample.
    rewrite Hnf. cbn [mbind result_bind]. rewrite Hx. cbn [mbind result_bind].
    unfold call1. by rewrite Hs.
  - intros Heq. rewrite Hget, decide_True by done.
    destruct (cartesian_sample_ok p _ (Solution.dx self) nf Hn Hnf) as (x & Hx & -> & _).
    exists x. split; [exact Hx|]. do 3 f_equal. lia.
Qed.

(** A profile read, replaced and read again, then replaced by the flat
    top: the next read is the flat top at the four nodes. *)
Lemma getPumping_after_setPumping_witness :
  Solution.getPumping
    (Solution.setPumping flat_top
       (run [GetPumping; SetPumping coordinate; GetPumping; GetPumping] line4).1)
  = Ok (NdArray (Sh1 4) [3; 3; 3; 3]%float).
Proof.
  destruct (getPumping_after_setPumping
              [GetPumping; SetPumping coordinate; GetPumping; GetPumping] line4 flat_top
              4 4%float eq_refl ltac:(cbn; lia) eq_refl) as [Hradial _].
  destruct Hradial as (x & Hx & Hget); [cbn; lia|].
  rewrite Hget. injection Hx as <-. reflexivity.
Defined.

(** A profile set earlier and read several times leaves no trace: the
    next read after [setPumping flat_top] samples the flat top. *)
Example profile_replaced :
  (run [GetPumping; SetPumping coordinate; GetPumping; GetPumping] line4).2
  = [Ok (NdArray (Sh1 4) [0; 0.66666666666666663; 1.3333333333333333; 2]%float);
     Ok (NdArray (Sh1 4) [0; 0.66666666666666663; 1.3333333333333333; 2]%float);
     Ok (NdArray (Sh1 4) [0; 0.66666666666666663; 1.3333333333333333; 2]%float)] ∧
  Solution.getPumping
    (Solution.setPumping flat_top
       (run [GetPumping; SetPumping coordinate; GetPumping; GetPumping] line4).1)
  = Ok (NdArray (Sh1 4) [3; 3; 3; 3]%float).
Proof. split; reflexivity. Qed.

(** ** What restore leaves alone *)

Lemma same_grid_refl (a : Solution.t) : same_grid a a.
Proof. by repeat split. Qed.

Lemma same_grid_trans (a b c : Solution.t) : same_grid a b → same_grid b c → same_grid a c.
Proof.
  intros (H1 & H2 & H3 & H4 & H5 & H6 & H7) (G1 & G2 & G3 & G4 & G5 & G6 & G7).
  repeat split; congruence.
Qed.

Lemma keeps_grid_lift {A} (r : result A) : keeps_grid (Solution.lift r).
Proof. intros self. apply same_grid_refl. Qed.

Lemma keeps_grid_assign (f : Solution.t → Solution.t) :
  (∀ self, same_grid self (f self)) → keeps_grid (Solution.assign f).
Proof. intros Hf self. apply Hf. Qed.

Lemma keeps_grid_bind {A B} (m : Solution.method A) (f : A → Solution.method B) :
  keeps_grid m → (∀ a, keeps_grid (f a)) → keeps_grid (m ≫= f).
Proof.
  intros Hm Hf self. unfold mbind, Solution.method_bind.
  specialize (Hm self). destruct (m self) as [[a|e] self']; cbn [snd] in *.
  - eapply same_grid_trans; [exact Hm | apply Hf].
  - exact Hm.
Qed.

(** C10: whether [restore] returns or raises half-way, the attributes
    [dt], [dx], [order], [num_nodes], [num_iters], [pumping] and
    [init_sol] of the object are those it had before the call. *)
Theorem restore_keeps_grid (fs : sio.filesystem) (filename : string)
    (self : Solution.t) :
  let self' := (Solution.restore fs filename self).2 in
  Solution.dt self' = Solution.dt self ∧
  Solution.dx self' = Solution.dx self ∧
  Solution.order self' = Solution.order self ∧
  Solution.num_nodes self' = Solution.num_nodes self ∧
  Solution.num_iters self' = Solution.num_iters self ∧
  Solution.pumping self' = Solution.pumping self ∧
  Solution.init_sol self' = Solution.init_sol self.
Proof.
  revert self. change (keeps_grid (Solution.restore fs filename)).
  unfold Solution.restore.
  repeat first
    [ apply keeps_grid_lift
    | apply keeps_grid_assign; intros self; by repeat split
    | apply keeps_grid_bind; [|intros ?] ].
Qed.

(** ** Storing and restoring *)

(** A vector comes back from the file as the same buffer, a line of
    length n as the column n x 1. *)
Lemma T_atleast_2d {A} (a : ndarray A) :
  is_vector (shape a) → np.wf a →
  np.T (sio.atleast_2d a) = NdArray (restored_shape (shape a)) (data a).
Proof.
  unfold np.wf, sio.atleast_2d. destruct a as [[|n|r c] l]; cbn [shape data np.size
    is_vector restored_shape]; intros Hv Hl.
  - by apply T_row.
  - destruct n as [|n]; [|by apply T_row].
    by destruct l.
  - destruct Hv as [-> | ->].
    + apply T_row; [done | cbn [data]; lia].
    + apply T_column; [done | cbn [data]; lia].
Qed.

Lemma array_T_2d (a : array) :
  is_vector (ashape a) → awf a →
  array_T (sio.array_2d a) = with_shape (restored_shape (ashape a)) a.
Proof.
  destruct a as [a|a]; cbn [ashape awf array_T sio.array_2d with_shape];
    intros Hv Hwf; by rewrite T_atleast_2d.
Qed.

(** What [store] writes when nothing stands in the way. *)
Lemma store_returns (self : Solution.t) (fs : sio.filesystem) (filename : option string)
    (label desc date : string) (sol : array) (a : ndarray float) (p : string) :
  Solution.solution self = Some sol →
  Solution.getPumping self = Ok a →
  Solution.originals self !! "" = None →
  (∀ k, is_Some (Solution.originals self !! k) → String.length k ≤ 31) →
  sio.locate fs sio.Write (sio.appendmat (Solution.file_name filename date)) = Ok p →
  ∃ fields,
    Solution.store self fs filename label desc date
    = (Ok (),
       {| sio.locate := sio.locate fs;
          sio.files := <[p := sio.MatFile {|
            sio.m_desc := Some (sio.chars desc);
            sio.m_dimlesses := Some (sio.atleast_2d (Solution.coeffs self));
            sio.m_elapsed_time := Some (sio.seconds_2d (Solution.elapsed_time self));
            sio.m_label := Some (sio.chars label);
            sio.m_originals := Some fields;
            sio.m_pumping := Some (sio.atleast_2d a);
            sio.m_solution := Some (sio.array_2d sol) |}]> (sio.files fs) |}).
Proof.
  intros Hsol Ha Hempty Hlen Hp. unfold Solution.store, sio.savemat. rewrite Ha, Hp.
  unfold sio.put_variables, sio.to_writeable. cbn [sio.originals sio.solution].
  rewrite decide_False by (rewrite Hempty; by intros [? ?]).
  rewrite decide_True.
  - rewrite Hsol. by eexists.
  - intros k v Hk. apply map_lookup_filter_Some in Hk as [Hk _]. apply Hlen. by eexists.
Qed.

(** [loadmat] on a name that reaches a mat-file. *)
Lemma loadmat_reads (fs : sio.filesystem) (name p : string) (m : sio.matfile) :
  sio._open_file fs name = Ok p → sio.files fs !! p = Some (sio.MatFile m) →
  sio.loadmat fs name = Ok m.
Proof. intros Ho Hf. unfold sio.loadmat. rewrite Ho. cbn [mbind result_bind]. by rewrite Hf. Qed.

(** C1, as the code has it: when the file can be opened for writing and
    the parameter names can be written, [store] returns; when [restore]
    under the same file name then reaches the file that was written, it
    succeeds on any Solution object and gives it the stored values of the
    coefficient vector, of the elapsed time and of a field that is a
    vector, element for element, as two-dimensional arrays (a line of n
    values as the column n x 1, an empty line as 0 x 0, a time that is a
    Python float as 1 x 1); the physical parameters are reset to the
    empty dictionary. *)
Theorem restore_after_store (self target : Solution.t) (fs : sio.filesystem)
    (filename : option string) (label desc date : string) (sol : array) (p : string) :
  Solution.solution self = Some sol →
  is_vector (ashape sol) → awf sol →
  is_vector (shape (Solution.coeffs self)) → np.wf (Solution.coeffs self) →
  is_Ok (Solution.getPumping self) →
  Solution.originals self !! "" = None →
  (∀ k, is_Some (Solution.originals self !! k) → String.length k ≤ 31) →
  sio.locate fs sio.Write (sio.appendmat (Solution.file_name filename date)) = Ok p →
  ∃ fs',
    Solution.store self fs filename label desc date = (Ok (), fs') ∧
    (sio._open_file fs' (Solution.file_name filename date) = Ok p →
     ∃ self',
       Solution.restore fs' (Solution.file_name filename date) target = (Ok (), self') ∧
       Solution.coeffs self'
       = NdArray (restored_shape (shape (Solution.coeffs self)))
           (data (Solution.coeffs self)) ∧
       (∀ t, Solution.elapsed_time self = Seconds t →
             Solution.elapsed_time self' = SecondsArray (NdArray (Sh2 1 1) [t])) ∧
       (∀ r c l, Solution.elapsed_time self = SecondsArray (NdArray (Sh2 r c) l) →
                 Solution.elapsed_time self' = SecondsArray (NdArray (Sh2 r c) l)) ∧
       Solution.solution self' = Some (with_shape (restored_shape (ashape sol)) sol) ∧
       Solution.originals self' = ∅).
Proof.
  intros Hsol Hv Hwf Hcv Hcwf [a Ha] Hempty Hlen Hp.
  destruct (store_returns self fs filename label desc date sol a p Hsol Ha Hempty Hlen Hp)
    as [fields Hstore].
  eexists. split; [exact Hstore|]. intros Hopen.
  unfold Solution.restore, Solution.lift, Solution.assign.
  unfold mbind at 1, Solution.method_bind at 1.
  erewrite loadmat_reads; [|exact Hopen|cbn [sio.files]; apply lookup_insert_eq].
  unfold mbind, Solution.method_bind.
  cbn. rewrite T_atleast_2d, array_T_2d by done.
  eexists. split; [reflexivity|]. cbn.
  split; [reflexivity|]. split; [by intros t ->|]. split; [by intros r c l ->|].
  split; reflexivity.
Qed.

(** The parameter names of [solve2d.py] can be written. *)
Lemma solve2d_names_fit (k : string) :
  is_Some (solve2d_params !! k) → String.length k ≤ 31.
Proof.
  intros [v Hk]. unfold solve2d_params in Hk.
  repeat (apply lookup_insert_Some in Hk as [[<- _]|[_ Hk]]; [cbn; lia|]).
  by rewrite lookup_empty in Hk.
Qed.

(** Four nodes stored under the default file name and restored into
    another object. *)
Lemma restore_after_store_witness :
  Solution.solution line4
  = Some (ComplexArray (NdArray (Sh1 4)
            [Complex 1 2; Complex 0 1; Complex 3 0; Complex 0.5 0.5])) ∧
  is_Ok (Solution.getPumping line4) ∧
  ∃ fs' self',
    Solution.store line4 working_directory None "steady" "four nodes" "2016-05-01 12:00:00"
    = (Ok (), fs') ∧
    Solution.restore fs' "2016-05-01_12:00:00.mat" mismatched = (Ok (), self') ∧
    Solution.coeffs self' = NdArray (Sh2 23 1) (data (Solution.coeffs line4)) ∧
    Solution.elapsed_time self' = SecondsArray (NdArray (Sh2 1 1) [1.5%float]) ∧
    Solution.solution self'
    = Some (ComplexArray (NdArray (Sh2 4 1)
              [Complex 1 2; Complex 0 1; Complex 3 0; Complex 0.5 0.5])) ∧
    Solution.originals self' = ∅.
Proof.
  assert (is_Ok (Solution.getPumping line4)) as Hp by (eexists; reflexivity).
  assert (Solution.originals line4 !! "" = None) as He by (vm_compute; reflexivity).
  assert (sio.locate working_directory sio.Write
            (sio.appendmat (Solution.file_name None "2016-05-01 12:00:00"))
          = Ok "2016-05-01_12:00:00.mat") as Hw by (vm_compute; reflexivity).
  split; [reflexivity|]. split; [exact Hp|].
  destruct (restore_after_store line4 mismatched working_directory None "steady"
              "four nodes" "2016-05-01 12:00:00" _ _
              eq_refl I eq_refl I eq_refl Hp He solve2d_names_fit Hw)
    as (fs' & Hstore & Hrestore).
  destruct Hrestore as (self' & Hrestore & Hc & Ht & _ & Hs & Ho).
  { pose proof Hstore as Hfs. vm_compute in Hfs. injection Hfs as <-.
    vm_compute. reflexivity. }
  exists fs', self'. split; [exact Hstore|]. split; [exact Hrestore|].
  split; [exact Hc|]. split; [exact (Ht _ eq_refl)|]. split; [exact Hs | exact Ho].
Defined.

(** C1 as worded fails: for a Solution with the parameters of
    [solve2d.py] and a 2 x 2 field, the round trip empties the parameters
    and hands the field back transposed. *)
Lemma round_trip_loses_parameters :
  ∃ fs' self',
    Solution.store square2 working_directory (Some "run.mat") "" "" "" = (Ok (), fs') ∧
    Solution.restore fs' "run.mat" square2 = (Ok (), self') ∧
    Solution.originals square2 !! "R" = Some 0.05%float ∧
    Solution.originals self' !! "R" = None ∧
    Solution.solution square2 = Some (FloatArray (NdArray (Sh2 2 2) [1; 2; 3; 4]%float)) ∧
    Solution.solution self' = Some (FloatArray (NdArray (Sh2 2 2) [1; 3; 2; 4]%float)).
Proof.
  eexists. eexists. split; [vm_compute; reflexivity|]. split; [vm_compute; reflexivity|].
  repeat split; vm_compute; reflexivity.
Qed.

(** ** The reservoir density in visualize *)

Lemma take_1_drop {A} (l : list A) i v : l !! i = Some v → take 1 (drop i l) = [v].
Proof.
  revert i. induction l as [|a l IH]; intros [|i] H; simplify_eq/=; [done|]. by apply IH.
Qed.

(** Slot [i] of a coefficient vector, stored as a line or as a column. *)
Lemma item_coefficient {A} (c : ndarray A) k i v :
  shape c = Sh1 k ∨ shape c = Sh2 k 1 → i < k → data c !! i = Some v →
  ∃ s, (s = Sh0 ∨ s = Sh1 1) ∧ np.item c i = Ok (NdArray s [v]).
Proof.
  intros [Hs|Hs] Hi Hv; unfold np.item; rewrite Hs, decide_True by done.
  - exists Sh0. split; [by left|]. by rewrite Hv.
  - exists (Sh1 1). split; [by right|]. by rewrite Nat.mul_1_r, (take_1_drop _ _ v).
Qed.

Lemma arange_line a b c x :
  np.arange a b c = Ok x → shape x = Sh1 (length (data x)).
Proof.
  unfold np.arange. intros H. bind_inv H. injection H as <-. cbn [shape data].
  by rewrite length_fmap, length_seq.
Qed.

Lemma density_shape a : shape (density a) = ashape a.
Proof. by destruct a. Qed.

Lemma density_length a : awf a → length (data (density a)) = np.size (ashape a).
Proof. destruct a as [a|a]; unfold awf, np.wf; cbn; rewrite length_fmap; done. Qed.

(** A table read row after row is its buffer. *)
Lemma bind_rows {B C} (F : nat → nat → list C) (g : B → list C) (ys : list B) r c :
  length ys = r * c →
  (∀ i j y, i < r → j < c → ys !! (i * c + j) = Some y → F i j = g y) →
  (i ← seq 0 r; j ← seq 0 c; F i j) = ys ≫= g.
Proof.
  revert F ys. induction r as [|r IH]; intros F ys Hl HF.
  - destruct ys; [done|]. simpl in Hl. lia.
  - rewrite <- (take_drop c ys), bind_app. cbn [seq]. rewrite bind_cons. f_equal.
    + assert (length (take c ys) = c) as Hc by (rewrite length_take; lia).
      rewrite <- Hc at 1. apply bind_seq_lookup. intros j y Hj.
      pose proof (lookup_lt_Some _ _ _ Hj) as Hlt. rewrite Hc in Hlt.
      rewrite lookup_take_lt in Hj by lia. apply HF; [lia | lia | done].
    + rewrite <- fmap_S_seq, list_fmap_bind.
      apply (IH (λ i j, F (S i) j)).
      * rewrite length_drop. lia.
      * intros i j y Hi Hj Hy. apply HF; [lia | lia |].
        rewrite lookup_drop in Hy. rewrite <- Hy. f_equal. lia.
Qed.

Lemma size_view2 s : np.size s = (np.view2 s).1 * (np.view2 s).2.
Proof. destruct s; simpl; lia. Qed.

Lemma bindex_within s i j :
  i < (np.view2 s).1 → j < (np.view2 s).2 → np.bindex s i j = i * (np.view2 s).2 + j.
Proof.
  intros Hi Hj. unfold np.bindex. repeat case_decide; lia.
Qed.

Lemma bind_ext_in {A B} (f g : A → list B) (l : list A) :
  (∀ x, x ∈ l → f x = g x) → l ≫= f = l ≫= g.
Proof.
  induction l as [|a l IH]; intros H; [done|]. rewrite !bind_cons. f_equal.
  - apply H. by left.
  - apply IH. intros x Hx. apply H. by right.
Qed.

(** A one-element operand is combined with every element of an array of
    any shape, which keeps its extents. *)
Lemma broadcast_scalar_any {A B C} (f : A → B → C) s0 (c : A) s (ys : list B) :
  s0 = Sh0 ∨ s0 = Sh1 1 → length ys = np.size s →
  ∃ s', np.broadcast f (NdArray s0 [c]) (NdArray s ys) = Ok (NdArray s' (f c <$> ys)) ∧
        np.view2 s' = np.view2 s ∧ 1 `max` np.rank s' = 1 `max` np.rank s.
Proof.
  intros Hs Hl. unfold np.broadcast.
  assert (np.view2 s0 = (1, 1)) as Hv by (by destruct Hs as [-> | ->]).
  cbn [shape data]. rewrite Hv. cbn [fst snd]. rewrite !bdim_one. cbn [mbind result_bind].
  eexists. split; [|split].
  - do 2 f_equal. rewrite <- bind_singleton.
    apply bind_rows; [by rewrite <- size_view2|].
    intros i j y Hi Hj Hy. unfold np.bindex at 1. rewrite Hv. cbn [fst snd].
    rewrite !(decide_True (P := 1 = 1)) by done. cbn [Nat.mul Nat.add lookup list_lookup].
    by rewrite bindex_within, Hy.
  - destruct Hs as [-> | ->]; by destruct s.
  - destruct Hs as [-> | ->]; by destruct s.
Qed.

(** Functions applied to the operands beforehand can be applied inside. *)
Lemma broadcast_fmap {A A' B B' C} (f : A' → B' → C) (g : A → A') (h : B → B')
    sa sb (xs : list A) (ys : list B) :
  np.broadcast f (NdArray sa (g <$> xs)) (NdArray sb (h <$> ys))
  = np.broadcast (λ x y, f (g x) (h y)) (NdArray sa xs) (NdArray sb ys).
Proof.
  unfold np.broadcast. cbn [shape data].
  destruct (np.bdim _ _) as [r|]; [|done]. cbn [mbind result_bind].
  destruct (np.bdim _ _) as [c|]; [|done]. cbn [mbind result_bind].
  do 2 f_equal. apply list_bind_ext; [|done]. intros i.
  apply list_bind_ext; [|done]. intros j. rewrite !list_lookup_fmap.
  by destruct (xs !! _), (ys !! _).
Qed.

(** Only the extents of an operand and the rank of the result matter. *)
Lemma broadcast_view {A B C} (f : A → B → C) (a : ndarray A) s1 s2 (ys : list B) :
  np.view2 s1 = np.view2 s2 →
  np.rank (shape a) `max` np.rank s1 = np.rank (shape a) `max` np.rank s2 →
  np.broadcast f a (NdArray s1 ys) = np.broadcast f a (NdArray s2 ys).
Proof.
  intros Hv Hr. unfold np.broadcast, np.bindex. cbn [shape data]. by rewrite Hv, Hr.
Qed.

(** A line against a table of as many columns: the line is combined with
    every row. *)
Lemma broadcast_rows {A B C} (f : A → B → C) (xs : list A) (ys : list B) r n :
  length xs = n → length ys = r * n →
  np.broadcast f (NdArray (Sh1 n) xs) (NdArray (Sh2 r n) ys)
  = Ok (NdArray (Sh2 r n) (i ← seq 0 r; zip_with f xs (take n (drop (i * n) ys)))).
Proof.
  intros Hx Hy. unfold np.broadcast. cbn [shape data np.view2 np.rank fst snd].
  rewrite bdim_one, bdim_same. cbn [mbind result_bind np.bshape Nat.max]. do 2 f_equal.
  apply bind_ext_in. intros i Hi. apply elem_of_seq in Hi as [_ Hi]. cbn [Nat.add] in Hi.
  assert (length (zip xs (take n (drop (i * n) ys))) = n) as Hz.
  { rewrite length_zip, length_take, length_drop. nia. }
  rewrite zip_with_zip, <- bind_singleton. rewrite <- Hz at 1.
  apply bind_seq_lookup. intros j [x y] Hj.
  apply lookup_zip_with_Some in Hj as (x' & y' & [= <- <-] & Hxj & Hyj).
  pose proof (lookup_lt_Some _ _ _ Hxj) as Hjn. rewrite Hx in Hjn.
  rewrite lookup_take_lt, lookup_drop in Hyj by lia.
  rewrite (bindex_within (Sh2 r n)) by (cbn; lia). cbn [np.view2 snd Nat.add].
  unfold np.bindex. cbn [np.view2 fst snd]. rewrite decide_True by done.
  case_decide.
  - assert (j = 0) as -> by lia. cbn [Nat.mul Nat.add]. by rewrite Hxj, Hyj.
  - cbn [Nat.mul Nat.add]. by rewrite Hxj, Hyj.
Qed.

Lemma density_squares (sol : array) :
  density sol
  = NdArray (ashape sol)
      match sol with
      | FloatArray a => (λ v, v * v)%float <$> data a
      | ComplexArray a => (λ z, re z * re z - (- im z) * im z)%float <$> data a
      end.
Proof. by destruct sol. Qed.

(** C3: for a Solution with a current field and a coefficient vector of
    more than 13 entries (a line, as the constructor builds it, or a
    column, as [restore] leaves it), [visualize] computes the pumping
    curve as the profile at the nodes [arange(0, dx * num_nodes, dx)],
    the density curve as the squared modulus of the field, element by
    element, and the reservoir curve as [coeffs[11] * p / (coeffs[12] +
    coeffs[13] * u)] for the pumping values [p] and the density values
    [u], combined as numpy broadcasts a line against the field; it
    raises exactly when that broadcast does.  For a field that is a line
    with one value per node the reservoir curve is the formula node by
    node; for a field that is a table with one column per node it is the
    formula on every row. *)
Theorem visualize_reservoir_density (self : Solution.t) (sol : array) (k : nat)
    (nn : float) (x : ndarray float) (c11 c12 c13 : float) :
  Solution.solution self = Some sol → awf sol →
  shape (Solution.coeffs self) = Sh1 k ∨ shape (Solution.coeffs self) = Sh2 k 1 →
  13 < k →
  data (Solution.coeffs self) !! 11 = Some c11 →
  data (Solution.coeffs self) !! 12 = Some c12 →
  data (Solution.coeffs self) !! 13 = Some c13 →
  Float.of_int (Solution.num_nodes self) = Ok nn →
  np.arange 0 (Solution.dx self * nn) (Solution.dx self) = Ok x →
  let n := length (data x) in
  let ps := at1 (Solution.pumping self) <$> data x in
  let us :=
    match sol with
    | FloatArray a => (λ v, v * v)%float <$> data a
    | ComplexArray a => (λ z, re z * re z - (- im z) * im z)%float <$> data a
    end in
  let formula := (λ p u, c11 * p / (c12 + c13 * u))%float in
  Solution.visualize self
  = (curve ← np.broadcast formula (NdArray (Sh1 n) ps) (NdArray (ashape sol) us);
     Ok {| Solution.x_nodes := x;
           Solution.p_curve := NdArray (Sh1 n) ps;
           Solution.u_curve := NdArray (ashape sol) us;
           Solution.n_curve := curve |}) ∧
  (ashape sol = Sh1 n →
   np.broadcast formula (NdArray (Sh1 n) ps) (NdArray (ashape sol) us)
   = Ok (NdArray (Sh1 n) (zip_with formula ps us))) ∧
  (∀ r, ashape sol = Sh2 r n →
   np.broadcast formula (NdArray (Sh1 n) ps) (NdArray (ashape sol) us)
   = Ok (NdArray (Sh2 r n) (i ← seq 0 r; zip_with formula ps (take n (drop (i * n) us))))).
Proof.
  intros Hsol Hwf Hk H13 H11v H12v H13v Hnn Hx n ps us formula.
  assert (length ps = n) as Hps by (unfold ps; by rewrite length_fmap).
  assert (density sol = NdArray (ashape sol) us) as Hd by apply density_squares.
  assert (length us = np.size (ashape sol)) as Hus.
  { pose proof (density_length sol Hwf) as H. by rewrite Hd in H. }
  split; [|split].
  - destruct (item_coefficient _ k 11 c11 Hk ltac:(lia) H11v) as (s11 & Hs11 & E11).
    destruct (item_coefficient _ k 12 c12 Hk ltac:(lia) H12v) as (s12 & Hs12 & E12).
    destruct (item_coefficient _ k 13 c13 Hk ltac:(lia) H13v) as (s13 & Hs13 & E13).
    unfold Solution.visualize. rewrite Hnn. cbn [mbind result_bind].
    rewrite Hx. cbn [mbind result_bind]. rewrite Hsol. cbn [mbind result_bind].
    rewrite E11. cbn [mbind result_bind].
    pose proof (arange_line _ _ _ _ Hx) as Hline. fold n in Hline.
    unfold call1. rewrite Hline. fold ps. rewrite Hd.
    unfold np.mul, np.add, np.div.
    rewrite (broadcast_scalar _ s11) by done. cbn [mbind result_bind].
    rewrite E12, E13. cbn [mbind result_bind].
    destruct (broadcast_scalar_any PrimFloat.mul s13 c13 (ashape sol) us Hs13 Hus)
      as (s1 & -> & Hv1 & Hr1).
    cbn [mbind result_bind].
    destruct (broadcast_scalar_any PrimFloat.add s12 c12 s1 (PrimFloat.mul c13 <$> us) Hs12)
      as (s2 & -> & Hv2 & Hr2).
    { by rewrite length_fmap, Hus, !size_view2, Hv1. }
    cbn [mbind result_bind].
    rewrite <- list_fmap_compose, broadcast_fmap.
    rewrite (broadcast_view _ _ s2 (ashape sol)); [done|congruence|cbn [shape np.rank]; lia].
  - intros Hs. rewrite Hs. apply broadcast_vectors; [done|]. by rewrite Hus, Hs.
  - intros r Hs. rewrite Hs. apply broadcast_rows; [done|]. by rewrite Hus, Hs.
Qed.

(** Four nodes with a complex field: the three curves. *)
Lemma visualize_reservoir_density_witness :
  Solution.solution line4
  = Some (ComplexArray (NdArray (Sh1 4)
            [Complex 1 2; Complex 0 1; Complex 3 0; Complex 0.5 0.5])) ∧
  Solution.visualize line4
  = Ok {| Solution.x_nodes := NdArray (Sh1 4) [0; 0.5; 1; 1.5]%float;
          Solution.p_curve := NdArray (Sh1 4) [0; 0.5; 1; 1.5]%float;
          Solution.u_curve := NdArray (Sh1 4) [5; 1; 9; 0.5]%float;
          Solution.n_curve := NdArray (Sh1 4)
            [(2 * 0.011 / 10) * 0 / (1 + 5 * 5);
             (2 * 0.011 / 10) * 0.5 / (1 + 5 * 1);
             (2 * 0.011 / 10) * 1 / (1 + 5 * 9);
             (2 * 0.011 / 10) * 1.5 / (1 + 5 * 0.5)]%float |}.
Proof.
  split; [reflexivity|].
  destruct (visualize_reservoir_density line4 _ 23 4%float
              (NdArray (Sh1 4) [0; 0.5; 1; 1.5]%float)
              (2 * 0.011 / 10)%float 1%float 5%float eq_refl eq_refl
              (or_introl eq_refl) ltac:(lia) eq_refl eq_refl eq_refl eq_refl eq_refl)
    as (Hv & Hline & _).
  rewrite Hv, (Hline eq_refl). reflexivity.
Defined.

(** ** The initial field built by the factory *)

Lemma init_keeps_field dt dx nn order ni p originals init self :
  Solution.__init__ dt dx nn order ni p originals init = Ok self →
  Solution.init_sol self = init.
Proof.
  unfold Solution.__init__. intros H. bind_inv H. by injection H as <-.
Qed.

Lemma Model1D_field kwargs u0 m :
  Model1D kwargs u0 = Ok m → Solution.init_sol (solution m) = u0 ∧ solver m = Solver1D.
Proof.
  unfold Model1D. intros H. bind_inv H. injection H as <-. cbn [solution solver].
  split; [by eapply init_keeps_field | done].
Qed.

Lemma Model2D_field kwargs u0 m :
  Model2D kwargs u0 = Ok m → Solution.init_sol (solution m) = u0 ∧ solver m = Solver2D.
Proof.
  unfold Model2D. intros H. bind_inv H. injection H as <-. cbn [solution solver].
  split; [by eapply init_keeps_field | done].
Qed.

(** A scalar times an array of ones is uniform. *)
Lemma scalar_times_uniform u0 s field :
  scalar_times u0 (NdArray s (replicate (np.size s) 1%float)) = Ok field →
  initial_field (kw.Scalar u0) s = Ok field.
Proof.
  destruct u0 as [z|f|c]; cbn [scalar_times initial_field shape data].
  - destruct (Float.of_int z); cbn [mbind result_bind]; by rewrite ?fmap_replicate.
  - by rewrite fmap_replicate.
  - by rewrite fmap_replicate.
Qed.

(** C8: when a fabricate method returns a model, the initial field of its
    solution is the field given as [u0], and for a scalar [u0] (the
    default 0.1 when the key is absent) the uniform field [u0 * 1.0] of
    length [num_nodes] in the 1D model and of shape [num_nodes] by
    [num_nodes] in the 2D model. *)
Theorem scalar_u0_is_broadcast (GaussianPumping : Pumping) (kwargs : kw.t)
    (dim : Solver) (m : Model) :
  match dim with
  | Solver1D => Problem.fabricateModel1D GaussianPumping kwargs
  | Solver2D => Problem.fabricateModel2D GaussianPumping kwargs
  end = Ok m →
  initial_field (default (kw.Scalar (kw.Float 0.1%float)) (kw.u0 kwargs))
    match dim with
    | Solver1D => Sh1 (Z.to_nat (default 1000%Z (kw.num_nodes kwargs)))
    | Solver2D => Sh2 (Z.to_nat (default 40%Z (kw.num_nodes kwargs)))
                      (Z.to_nat (default 40%Z (kw.num_nodes kwargs)))
    end
  = Ok (Solution.init_sol (solution m)) ∧
  solver m = dim.
Proof.
  destruct dim; intros H.
  - unfold Problem.fabricateModel1D, Problem.defaults in H.
    cbn [kw.u0 kw.num_nodes kw.get mbind result_bind] in H.
    bind_inv H. destruct (Model1D_field _ _ _ H) as [Hfield Hsolver].
    split; [|exact Hsolver]. rewrite Hfield. clear H Hfield Hsolver.
    destruct (default _ (kw.u0 kwargs)) as [u0|a0]; [|exact E].
    unfold np.ones in E. case_match; [discriminate E|].
    cbn [mbind result_bind] in E. by apply scalar_times_uniform.
  - unfold Problem.fabricateModel2D, Problem.defaults in H.
    cbn [kw.u0 kw.num_nodes kw.get mbind result_bind] in H.
    bind_inv H. destruct (Model2D_field _ _ _ H) as [Hfield Hsolver].
    split; [|exact Hsolver]. rewrite Hfield. clear H Hfield Hsolver.
    destruct (default _ (kw.u0 kwargs)) as [u0|a0]; [|exact E].
    unfold np.ones2 in E. case_match; [discriminate E|].
    cbn [mbind result_bind] in E. by apply scalar_times_uniform.
Qed.

(** The 2D model of [solve2d.py] with [u0 = 0.1], and a 1D model of four
    nodes with the integer [u0 = 2]. *)
Lemma scalar_u0_is_broadcast_witness :
  (∃ m, Problem.fabricateModel2D flat_top solve2d_kwargs = Ok m ∧
        Solution.init_sol (solution m)
        = FloatArray (NdArray (Sh2 40 40) (replicate 1600 (0.1 * 1)%float))) ∧
  (∃ m, Problem.fabricateModel1D flat_top line_kwargs = Ok m ∧
        Solution.init_sol (solution m)
        = FloatArray (NdArray (Sh1 4) [2; 2; 2; 2]%float)).
Proof.
  split.
  - assert (∃ m, Problem.fabricateModel2D flat_top solve2d_kwargs = Ok m) as [m Hm]
      by (eexists; reflexivity).
    destruct (scalar_u0_is_broadcast flat_top solve2d_kwargs Solver2D m Hm) as [Hfield _].
    exists m. split; [exact Hm|]. injection Hfield as <-. reflexivity.
  - assert (∃ m, Problem.fabricateModel1D flat_top line_kwargs = Ok m) as [m Hm]
      by (eexists; reflexivity).
    destruct (scalar_u0_is_broadcast flat_top line_kwargs Solver1D m Hm) as [Hfield _].
    exists m. split; [exact Hm|]. injection Hfield as <-. reflexivity.
Defined.

(** ** The radial grid of getPumping *)

(** With more than one node the radial branch samples the profile at the
    end point [num_nodes * dx] itself. *)
Lemma radial_sample_last p n dx nf a :
  (1 < n)%Z → Float.of_int n = Ok nf →
  Solution.radial_sample p n dx = Ok a →
  last (data a) = Some (at1 p (nf * dx)%float).
Proof.
  intros Hn Hnf. unfold Solution.radial_sample. rewrite Hnf. cbn [mbind result_bind].
  intros H. bind_inv H. injection H as <-. unfold call1. cbn [data].
  rewrite fmap_last. by erewrite linspace_last.
Qed.

(** C5 at four nodes half a unit apart, with the grid itself as the
    profile: [getPumping] samples at 0, 2/3, 4/3 and 2, the end point
    [dx * num_nodes] included and the spacing not [dx], while [visualize]
    evaluates the same profile at 0, 0.5, 1 and 1.5. *)
Theorem radial_grid_reaches_end_point :
  Solution.dx line4 = 0.5%float ∧ Solution.num_nodes line4 = 4%Z ∧
  np.len (ashape (Solution.init_sol line4)) = Ok 4 ∧
  Solution.getPumping line4
  = Ok (NdArray (Sh1 4) [0; 0.66666666666666663; 1.3333333333333333; 2]%float) ∧
  ∃ cv, Solution.visualize line4 = Ok cv ∧
        Solution.p_curve cv = NdArray (Sh1 4) [0; 0.5; 1; 1.5]%float.
Proof.
  split; [reflexivity|]. split; [reflexivity|]. split; [reflexivity|].
  split; [reflexivity|]. eexists. split; reflexivity.
Qed.

(** * Further properties *)

Lemma init_inv dt dx nn order ni p (originals : gmap string float) init self :
  Solution.__init__ dt dx nn order ni p originals init = Ok self →
  ∃ R gamma g tg gR,
    originals !! "R" = Some R ∧ originals !! "gamma" = Some gamma ∧
    originals !! "g" = Some g ∧ originals !! "tilde_g" = Some tg ∧
    originals !! "gamma_R" = Some gR ∧
    (4.0 * tg =? 0)%float = false ∧ (gR =? 0)%float = false ∧
    (gR * g =? 0)%float = false ∧
    self = {| Solution.dt := dt; Solution.dx := dx; Solution.order := order;
              Solution.num_nodes := nn; Solution.num_iters := ni; Solution.pumping := p;
              Solution.init_sol := init; Solution.solution := None;
              Solution.originals := originals;
              Solution.coeffs := NdArray (Sh1 23)
                [1; 1; R / (4 * tg); gamma * Solution.t0 / 2; 1; 1; 0; 0; 0; 0;
                 0; 2 * tg * Solution.t0 / gR; 1; R / (gR * g); 0;
                 0; 0; 0; 0; 0; 0; 0; 0]%float;
              Solution.elapsed_time := Seconds 0; Solution.desc := None;
              Solution.label := None |}.
Proof.
  unfold Solution.__init__, getitem, Float.truediv. intros H.
  destruct (originals !! "R") as [R|]; [|discriminate H].
  destruct (originals !! "tilde_g") as [tg|]; [|discriminate H].
  cbn [mbind result_bind] in H.
  destruct (4.0 * tg =? 0)%float eqn:H2; [discriminate H|].
  destruct (originals !! "gamma") as [gamma|]; [|discriminate H].
  destruct (originals !! "gamma_R") as [gR|]; [|discriminate H].
  cbn [mbind result_bind] in H.
  destruct (gR =? 0)%float eqn:H11; [discriminate H|].
  destruct (originals !! "g") as [g|]; [|discriminate H].
  cbn [mbind result_bind] in H.
  destruct (gR * g =? 0)%float eqn:H13; [discriminate H|].
  injection H as <-. exists R, gamma, g, tg, gR. by repeat split.
Qed.

Lemma init_ok dt dx nn order ni p (originals : gmap string float) init R gamma g tg gR :
  originals !! "R" = Some R → originals !! "gamma" = Some gamma →
  originals !! "g" = Some g → originals !! "tilde_g" = Some tg →
  originals !! "gamma_R" = Some gR →
  (4.0 * tg =? 0)%float = false → (gR =? 0)%float = false →
  (gR * g =? 0)%float = false →
  is_Ok (Solution.__init__ dt dx nn order ni p originals init).
Proof.
  intros HR Hgamma Hg Htg HgR H2 H11 H13.
  unfold Solution.__init__, getitem, Float.truediv.
  rewrite HR, Htg, Hgamma, HgR, Hg. cbn [mbind result_bind].
  rewrite H2. cbn [mbind result_bind]. rewrite H11. cbn [mbind result_bind].
  rewrite H13. cbn [mbind result_bind]. by eexists.
Qed.

(** X1: the constructor returns a Solution exactly when the dictionary
    holds the five physical parameters and none of the three divisors
    [4 * tilde_g], [gamma_R], [gamma_R * g] is zero. *)
Theorem construction_succeeds_iff dt dx nn order ni p (originals : gmap string float) init :
  is_Ok (Solution.__init__ dt dx nn order ni p originals init) ↔
  ∃ R gamma g tg gR,
    originals !! "R" = Some R ∧ originals !! "gamma" = Some gamma ∧
    originals !! "g" = Some g ∧ originals !! "tilde_g" = Some tg ∧
    originals !! "gamma_R" = Some gR ∧
    (4.0 * tg =? 0)%float = false ∧ (gR =? 0)%float = false ∧
    (gR * g =? 0)%float = false.
Proof.
  split.
  - intros [self H]. apply init_inv in H as (R & gamma & g & tg & gR & H).
    exists R, gamma, g, tg, gR. tauto.
  - intros (R & gamma & g & tg & gR & HR & Hgamma & Hg & Htg & HgR & H2 & H11 & H13).
    by eapply init_ok.
Qed.

(** The parameters of [solve2d.py] are accepted. *)
Lemma construction_succeeds_iff_witness :
  is_Ok (Solution.__init__ 0.001 0.1 40 5 10000 flat_top solve2d_params (uniform 40)).
Proof.
  apply construction_succeeds_iff.
  exists 0.05%float, 0.566%float, 1.0e-3%float, 0.011%float, 10%float.
  repeat split; reflexivity.
Defined.

(** X2: the coefficient vector is a function of the physical parameters
    alone: when one construction succeeds, a construction with the same
    parameters and any other steps, counts, profile and initial field
    succeeds too and has the same 23 coefficients; the new object has no
    field yet and no elapsed time. *)
Theorem coefficients_depend_on_parameters_only
    dt1 dx1 nn1 order1 ni1 p1 init1 dt2 dx2 nn2 order2 ni2 p2 init2
    (originals : gmap string float) self1 :
  Solution.__init__ dt1 dx1 nn1 order1 ni1 p1 originals init1 = Ok self1 →
  ∃ self2,
    Solution.__init__ dt2 dx2 nn2 order2 ni2 p2 originals init2 = Ok self2 ∧
    Solution.coeffs self2 = Solution.coeffs self1 ∧
    shape (Solution.coeffs self1) = Sh1 23 ∧ length (data (Solution.coeffs self1)) = 23 ∧
    Solution.solution self1 = None ∧ Solution.elapsed_time self1 = Seconds 0.
Proof.
  intros H. apply init_inv in H
    as (R & gamma & g & tg & gR & HR & Hgamma & Hg & Htg & HgR & H2 & H11 & H13 & ->).
  destruct (init_ok dt2 dx2 nn2 order2 ni2 p2 originals init2 _ _ _ _ _
              HR Hgamma Hg Htg HgR H2 H11 H13) as [self2 H].
  exists self2. split; [exact H|].
  apply init_inv in H as (R' & gamma' & g' & tg' & gR' & HR' & Hgamma' & Hg' & Htg'
                           & HgR' & _ & _ & _ & ->).
  simplify_eq. done.
Qed.

Lemma coefficients_depend_on_parameters_only_witness :
  ∃ self1 self2,
    Solution.__init__ 0.001 0.1 40 5 10000 flat_top solve2d_params (uniform 40) = Ok self1 ∧
    Solution.__init__ 0.002 0.5 4 3 10 coordinate solve2d_params (uniform 4) = Ok self2 ∧
    Solution.coeffs self2 = Solution.coeffs self1.
Proof.
  assert (∃ self1, Solution.__init__ 0.001 0.1 40 5 10000 flat_top solve2d_params
                     (uniform 40) = Ok self1) as [self1 H1] by (eexists; reflexivity).
  destruct (coefficients_depend_on_parameters_only
              0.001 0.1 40 5 10000 flat_top (uniform 40)
              0.002 0.5 4 3 10 coordinate (uniform 4) solve2d_params self1 H1)
    as (self2 & H2 & Hc & _).
  exists self1, self2. split; [exact H1|]. split; [exact H2 | exact Hc].
Defined.

Lemma linspace_nonneg a b n y : np.linspace a b n = Ok y → (0 ≤ n)%Z.
Proof.
  unfold np.linspace. destruct (Z.ltb_spec n 0) as [?|?]; [discriminate|lia].
Qed.

(** X3: whenever [getPumping] returns, the node count is not negative and
    the sample is a one-dimensional array that holds as many values as
    its shape says: the field length in the mesh branch, [num_nodes] in
    the radial branch. *)
Theorem getPumping_sample_size (self : Solution.t) (a : ndarray float) :
  Solution.getPumping self = Ok a →
  (0 ≤ Solution.num_nodes self)%Z ∧
  np.wf a ∧
  ∃ l, np.len (ashape (Solution.init_sol self)) = Ok l ∧
       shape a = Sh1 (if decide ((Solution.num_nodes self ^ 2)%Z = Z.of_nat l)
                      then l else Z.to_nat (Solution.num_nodes self)).
Proof.
  unfold Solution.getPumping. intros H.
  destruct (np.len _) as [l|] eqn:Hl; [|discriminate H]. cbn [mbind result_bind] in H.
  destruct (decide _) as [Hsq|Hsq].
  - pose proof H as H'. unfold Solution.cartesian_sample in H'.
    destruct (Float.of_int _) as [nf|] eqn:Hnf; [|discriminate H'].
    cbn [mbind result_bind] in H'.
    destruct (np.linspace _ _ _) as [x|] eqn:Hx; [|discriminate H'].
    apply linspace_nonneg in Hx as Hn.
    destruct (cartesian_sample_ok (Solution.pumping self) _ (Solution.dx self) nf Hn Hnf)
      as (x' & _ & Hs & Hlen).
    rewrite Hs in H. injection H as <-.
    split; [exact Hn|]. split; [exact Hlen|].
    exists l. split; [done|]. rewrite decide_True by done. cbn [shape]. f_equal. lia.
  - pose proof H as H'. unfold Solution.radial_sample in H'.
    destruct (Float.of_int _) as [nf|] eqn:Hnf; [|discriminate H'].
    cbn [mbind result_bind] in H'.
    destruct (np.linspace _ _ _) as [x|] eqn:Hx; [|discriminate H'].
    apply linspace_nonneg in Hx as Hn.
    destruct (radial_sample_ok (Solution.pumping self) _ (Solution.dx self) nf Hn Hnf)
      as (a' & Ha' & Hs & Hlen).
    rewrite Ha' in H. injection H as <-.
    split; [exact Hn|]. split; [unfold np.wf; by rewrite Hs, Hlen|].
    exists l. split; [done|]. by rewrite decide_False.
Qed.

(** Four nodes and a field of four values: the radial branch. *)
Lemma getPumping_sample_size_witness :
  ∃ a, Solution.getPumping line4 = Ok a ∧ np.wf a ∧ shape a = Sh1 4.
Proof.
  assert (∃ a, Solution.getPumping line4 = Ok a) as [a Ha] by (eexists; reflexivity).
  destruct (getPumping_sample_size line4 a Ha) as (_ & Hwf & l & Hl & Hs).
  exists a. split; [exact Ha|]. split; [exact Hwf|].
  cbn in Hl. injection Hl as <-. exact Hs.
Defined.

(** X4: a Solution as the constructor returns it has no field:
    [visualize] never returns on it (it raises [AttributeError] once the
    nodes are computed), and [store] never returns on it.  Once the
    pumping sample is computed, the file is open and the parameter names
    can be written, [store] raises [TypeError] at the key [solution] and
    leaves a file behind that holds the six variables written before it:
    the coefficients as 1 x 23, the elapsed time 0 as 1 x 1, and no
    [solution]. *)
Theorem fresh_solution_has_no_field dt dx nn order ni p (originals : gmap string float)
    init self :
  Solution.__init__ dt dx nn order ni p originals init = Ok self →
  (∀ cv, Solution.visualize self ≠ Ok cv) ∧
  (∀ nf x, Float.of_int nn = Ok nf → np.arange 0 (dx * nf) dx = Ok x →
     Solution.visualize self = Raise AttributeError) ∧
  (∀ fs filename label desc date,
     (Solution.store self fs filename label desc date).1 ≠ Ok ()) ∧
  (∀ fs filename label desc date a path,
     Solution.getPumping self = Ok a →
     sio.locate fs sio.Write (sio.appendmat (Solution.file_name filename date)) = Ok path →
     originals !! "" = None →
     (∀ k, is_Some (originals !! k) → String.length k ≤ 31) →
     Solution.store self fs filename label desc date
     = (Raise TypeError,
        {| sio.locate := sio.locate fs;
           sio.files := <[path := sio.MatFile {|
             sio.m_desc := Some (sio.chars desc);
             sio.m_dimlesses := Some (NdArray (Sh2 1 23) (data (Solution.coeffs self)));
             sio.m_elapsed_time := Some (NdArray (Sh2 1 1) [0%float]);
             sio.m_label := Some (sio.chars label);
             sio.m_originals := Some (filter (λ kv, sio.is_field kv.1 = true) originals);
             sio.m_pumping := Some (sio.atleast_2d a);
             sio.m_solution := None |}]> (sio.files fs) |})).
Proof.
  intros H. apply init_inv in H as (R & gamma & g & tg & gR & _ & _ & _ & _ & _ & _ & _ & _ & ->).
  split; [|split; [|split]].
  - intros cv H. unfold Solution.visualize in H. cbn [Solution.solution] in H.
    bind_inv H. discriminate.
  - intros nf x Hnf Hx. unfold Solution.visualize.
    cbn [Solution.num_nodes Solution.dx Solution.solution].
    rewrite Hnf. cbn [mbind result_bind]. by rewrite Hx.
  - intros fs filename label desc date. unfold Solution.store, sio.savemat.
    destruct (Solution.getPumping _) as [a|e]; [|done].
    destruct (sio.locate _ _ _) as [path|e]; [|done].
    unfold sio.put_variables. cbn [sio.originals sio.solution Solution.solution
      Solution.originals].
    destruct (sio.to_writeable originals) as [fields|e]; [|done].
    by case_decide.
  - intros fs filename label desc date a path Ha Hpath Hempty Hlen.
    unfold Solution.store, sio.savemat. rewrite Ha, Hpath.
    unfold sio.put_variables, sio.to_writeable.
    cbn [sio.originals sio.solution Solution.solution Solution.originals].
    rewrite decide_False by (rewrite Hempty; by intros [? ?]).
    rewrite decide_True; [reflexivity|].
    intros k v Hk. apply map_lookup_filter_Some in Hk as [Hk _]. apply Hlen. by eexists.
Qed.

(** The parameters of [solve2d.py] on four nodes, stored in the working
    directory under the default name. *)
Lemma fresh_solution_has_no_field_witness :
  ∃ self fs' m,
    Solution.__init__ 0.001 0.5 4 3 10 coordinate solve2d_params (uniform 4) = Ok self ∧
    Solution.visualize self = Raise AttributeError ∧
    Solution.store self working_directory None "" "" "2016-05-01 12:00:00"
    = (Raise TypeError, fs') ∧
    sio.files fs' !! "2016-05-01_12:00:00.mat" = Some (sio.MatFile m) ∧
    sio.m_solution m = None ∧
    sio.m_elapsed_time m = Some (NdArray (Sh2 1 1) [0%float]).
Proof.
  assert (∃ self, Solution.__init__ 0.001 0.5 4 3 10 coordinate solve2d_params
                    (uniform 4) = Ok self) as [self H1] by (eexists; reflexivity).
  assert (∃ a, Solution.getPumping self = Ok a) as [a Ha].
  { injection H1 as <-. eexists. reflexivity. }
  assert (sio.locate working_directory sio.Write
            (sio.appendmat (Solution.file_name None "2016-05-01 12:00:00"))
          = Ok "2016-05-01_12:00:00.mat") as Hw by (vm_compute; reflexivity).
  assert (solve2d_params !! "" = None) as He by (vm_compute; reflexivity).
  destruct (fresh_solution_has_no_field _ _ _ _ _ _ _ _ _ H1) as (_ & Hv & _ & Hs).
  eexists self, _, _. split; [exact H1|]. split; [eapply Hv; reflexivity|].
  split; [exact (Hs working_directory None "" "" "2016-05-01 12:00:00" a _ Ha Hw He
                   solve2d_names_fit)|].
  split; [apply lookup_insert_eq|]. split; reflexivity.
Defined.

Lemma fabricate_inv (G : Pumping) (kwargs : kw.t) (dim : Solver) (m : Model) :
  match dim with
  | Solver1D => Problem.fabricateModel1D G kwargs
  | Solver2D => Problem.fabricateModel2D G kwargs
  end = Ok m →
  ∃ o field,
    kw.original_params kwargs = Some o ∧
    Solution.__init__
      (default 1.0e-3%float (kw.dt kwargs)) (default 1.0e-1%float (kw.dx kwargs))
      (default (match dim with Solver1D => 1000 | Solver2D => 40 end)%Z (kw.num_nodes kwargs))
      (default (match dim with Solver1D => 5 | Solver2D => 3 end)%Z (kw.order kwargs))
      (default (match dim with Solver1D => 100000 | Solver2D => 1000 end)%Z
         (kw.num_iters kwargs))
      (default G (kw.pumping kwargs)) o field = Ok (solution m) ∧
    solver m = dim ∧
    match default (kw.Scalar (kw.Float 1.0e-1%float)) (kw.u0 kwargs) with
    | kw.Scalar s =>
        ∃ ones,
          match dim with
          | Solver1D => np.ones (default 1000%Z (kw.num_nodes kwargs))
          | Solver2D => np.ones2 (default 40%Z (kw.num_nodes kwargs))
          end = Ok ones ∧
          scalar_times s ones = Ok field
    | kw.Field a => field = a
    end.
Proof.
  destruct dim; intros H.
  - unfold Problem.fabricateModel1D, Problem.defaults in H.
    cbn [kw.u0 kw.num_nodes kw.get mbind result_bind] in H.
    destruct (match default _ (kw.u0 kwargs) with kw.Scalar _ => _ | kw.Field _ => _ end)
      as [field|] eqn:Hfield; [|discriminate H]. cbn [mbind result_bind] in H.
    unfold Model1D in H.
    cbn [kw.dt kw.dx kw.order kw.num_nodes kw.num_iters kw.pumping kw.original_params
         kw.get mbind result_bind] in H.
    destruct (kw.original_params kwargs) as [o|]; [|discriminate H].
    cbn [kw.get mbind result_bind] in H.
    destruct (Solution.__init__ _ _ _ _ _ _ _ _) as [s|] eqn:Hs; [|discriminate H].
    injection H as <-. exists o, field. split; [done|]. split; [exact Hs|]. split; [done|].
    destruct (default _ (kw.u0 kwargs)) as [u|a]; [|by injection Hfield].
    destruct (np.ones _) as [ones|]; [|discriminate Hfield]. by exists ones.
  - unfold Problem.fabricateModel2D, Problem.defaults in H.
    cbn [kw.u0 kw.num_nodes kw.get mbind result_bind] in H.
    destruct (match default _ (kw.u0 kwargs) with kw.Scalar _ => _ | kw.Field _ => _ end)
      as [field|] eqn:Hfield; [|discriminate H]. cbn [mbind result_bind] in H.
    unfold Model2D in H.
    cbn [kw.dt kw.dx kw.order kw.num_nodes kw.num_iters kw.pumping kw.original_params
         kw.get mbind result_bind] in H.
    destruct (kw.original_params kwargs) as [o|]; [|discriminate H].
    cbn [kw.get mbind result_bind] in H.
    destruct (Solution.__init__ _ _ _ _ _ _ _ _) as [s|] eqn:Hs; [|discriminate H].
    injection H as <-. exists o, field. split; [done|]. split; [exact Hs|]. split; [done|].
    destruct (default _ (kw.u0 kwargs)) as [u|a]; [|by injection Hfield].
    destruct (np.ones2 _) as [ones|]; [|discriminate Hfield]. by exists ones.
Qed.

(** X5: a model returned by a fabricate method has, for each of [dt],
    [dx], [order], [num_nodes], [num_iters] and [pumping], the value given
    under that key, or else the default: 0.001, 0.1, [GaussianPumping()],
    and 5, 1000, 100000 for the 1D model, 3, 40, 1000 for the 2D model;
    its parameters are those given as [original_params], and its solver
    is that of the method. *)
Theorem factory_fills_in_defaults (G : Pumping) (kwargs : kw.t) (dim : Solver) (m : Model) :
  match dim with
  | Solver1D => Problem.fabricateModel1D G kwargs
  | Solver2D => Problem.fabricateModel2D G kwargs
  end = Ok m →
  Solution.dt (solution m) = default 1.0e-3%float (kw.dt kwargs) ∧
  Solution.dx (solution m) = default 1.0e-1%float (kw.dx kwargs) ∧
  Solution.order (solution m)
  = default (match dim with Solver1D => 5 | Solver2D => 3 end)%Z (kw.order kwargs) ∧
  Solution.num_nodes (solution m)
  = default (match dim with Solver1D => 1000 | Solver2D => 40 end)%Z (kw.num_nodes kwargs) ∧
  Solution.num_iters (solution m)
  = default (match dim with Solver1D => 100000 | Solver2D => 1000 end)%Z
      (kw.num_iters kwargs) ∧
  Solution.pumping (solution m) = default G (kw.pumping kwargs) ∧
  kw.original_params kwargs = Some (Solution.originals (solution m)) ∧
  solver m = dim.
Proof.
  intros H. apply fabricate_inv in H as (o & field & Ho & Hinit & Hsolver & _).
  apply init_inv in Hinit as (R & gamma & g & tg & gR & _ & _ & _ & _ & _ & _ & _ & _ & ->).
  cbn. by repeat split.
Qed.

(** Four nodes are given, the other values are the defaults of the 1D
    model. *)
Lemma factory_fills_in_defaults_witness :
  ∃ m, Problem.fabricateModel1D flat_top line_kwargs = Ok m ∧
       Solution.dt (solution m) = 0.001%float ∧
       Solution.order (solution m) = 5%Z ∧
       Solution.num_nodes (solution m) = 4%Z ∧
       Solution.num_iters (solution m) = 100000%Z ∧
       solver m = Solver1D.
Proof.
  assert (∃ m, Problem.fabricateModel1D flat_top line_kwargs = Ok m) as [m Hm]
    by (eexists; reflexivity).
  destruct (factory_fills_in_defaults flat_top line_kwargs Solver1D m Hm)
    as (Hdt & _ & Ho & Hn & Hi & _ & _ & Hs).
  exists m. split; [exact Hm|]. split; [exact Hdt|]. split; [exact Ho|].
  split; [exact Hn|]. split; [exact Hi | exact Hs].
Defined.

(** X6: a fabricate method returns a model only if [original_params] is
    given and holds all five physical parameters: the key has no
    default. *)
Theorem factory_needs_parameters (G : Pumping) (kwargs : kw.t) (dim : Solver) (m : Model) :
  match dim with
  | Solver1D => Problem.fabricateModel1D G kwargs
  | Solver2D => Problem.fabricateModel2D G kwargs
  end = Ok m →
  ∃ o, kw.original_params kwargs = Some o ∧
       ∀ k, k ∈ physical_keys → is_Some (o !! k).
Proof.
  intros H. apply fabricate_inv in H as (o & field & Ho & Hinit & _).
  exists o. split; [exact Ho|].
  apply init_inv in Hinit
    as (R & gamma & g & tg & gR & HR & Hgamma & Hg & Htg & HgR & _).
  intros k Hk. unfold physical_keys in Hk.
  repeat (apply elem_of_cons in Hk as [->|Hk]); eauto.
  by apply elem_of_nil in Hk.
Qed.

Lemma factory_needs_parameters_witness :
  ∃ m o, Problem.fabricateModel2D flat_top solve2d_kwargs = Ok m ∧
         kw.original_params solve2d_kwargs = Some o ∧ is_Some (o !! "gamma_R").
Proof.
  assert (∃ m, Problem.fabricateModel2D flat_top solve2d_kwargs = Ok m) as [m Hm]
    by (eexists; reflexivity).
  destruct (factory_needs_parameters flat_top solve2d_kwargs Solver2D m Hm) as (o & Ho & Hk).
  exists m, o. split; [exact Hm|]. split; [exact Ho|].
  apply Hk. unfold physical_keys. rewrite !elem_of_cons. do 4 right. left. reflexivity.
Defined.

Lemma scalar_times_shape s ones field :
  scalar_times s ones = Ok field → ashape field = shape ones.
Proof.
  destruct s as [z|f|c]; cbn [scalar_times]; intros H; bind_inv H;
    by injection H as <-.
Qed.

Lemma radial_sample_shape p n dx a :
  Solution.radial_sample p n dx = Ok a →
  shape a = Sh1 (Z.to_nat n) ∧ length (data a) = Z.to_nat n.
Proof.
  intros H. pose proof H as H'. unfold Solution.radial_sample in H'.
  destruct (Float.of_int n) as [nf|] eqn:Hnf; [|discriminate H'].
  cbn [mbind result_bind] in H'.
  destruct (np.linspace _ _ _) as [x|] eqn:Hx; [|discriminate H'].
  apply linspace_nonneg in Hx as Hn.
  destruct (radial_sample_ok p n dx nf Hn Hnf) as (a' & Ha' & Hs & Hlen).
  rewrite Ha' in H. by injection H as <-.
Qed.

(** X7: the Solution that [fabricateModel2D] constructs from a scalar [u0]
    and at least two nodes has an initial field of shape [num_nodes] by
    [num_nodes], whose [len] is [num_nodes]; [getPumping] on it is
    therefore the radial sample, of [num_nodes] values whenever it
    returns. *)
Theorem fabricated_2d_field_is_sampled_radially (G : Pumping) (kwargs : kw.t) (m : Model)
    (s : kw.scalar) :
  Problem.fabricateModel2D G kwargs = Ok m →
  default (kw.Scalar (kw.Float 1.0e-1%float)) (kw.u0 kwargs) = kw.Scalar s →
  (2 ≤ default 40 (kw.num_nodes kwargs))%Z →
  ashape (Solution.init_sol (solution m))
  = Sh2 (Z.to_nat (default 40%Z (kw.num_nodes kwargs)))
        (Z.to_nat (default 40%Z (kw.num_nodes kwargs))) ∧
  Solution.getPumping (solution m)
  = Solution.radial_sample (default G (kw.pumping kwargs))
      (default 40%Z (kw.num_nodes kwargs)) (default 1.0e-1%float (kw.dx kwargs)) ∧
  ∀ a, Solution.getPumping (solution m) = Ok a →
       shape a = Sh1 (Z.to_nat (default 40%Z (kw.num_nodes kwargs))) ∧
       length (data a) = Z.to_nat (default 40%Z (kw.num_nodes kwargs)).
Proof.
  intros H Hu0 Hn.
  apply (fabricate_inv G kwargs Solver2D) in H as (o & field & _ & Hinit & _ & Hfield).
  rewrite Hu0 in Hfield. destruct Hfield as (ones & Hones & Htimes).
  apply scalar_times_shape in Htimes as Hshape.
  unfold np.ones2 in Hones. destruct (Z.ltb_spec (default 40%Z (kw.num_nodes kwargs)) 0);
    [lia|]. injection Hones as <-. cbn [shape] in Hshape.
  apply init_inv in Hinit as (R & gamma & g & tg & gR & _ & _ & _ & _ & _ & _ & _ & _ & ->).
  cbn [Solution.init_sol].
  assert (Solution.getPumping
            {| Solution.dt := default 1.0e-3%float (kw.dt kwargs);
               Solution.dx := default 1.0e-1%float (kw.dx kwargs);
               Solution.order := default 3%Z (kw.order kwargs);
               Solution.num_nodes := default 40%Z (kw.num_nodes kwargs);
               Solution.num_iters := default 1000%Z (kw.num_iters kwargs);
               Solution.pumping := default G (kw.pumping kwargs);
               Solution.init_sol := field; Solution.solution := None;
               Solution.originals := o;
               Solution.coeffs := NdArray (Sh1 23)
                 [1; 1; R / (4 * tg); gamma * Solution.t0 / 2; 1; 1; 0; 0; 0; 0;
                  0; 2 * tg * Solution.t0 / gR; 1; R / (gR * g); 0;
                  0; 0; 0; 0; 0; 0; 0; 0]%float;
               Solution.elapsed_time := Seconds 0; Solution.desc := None;
               Solution.label := None |}
          = Solution.radial_sample (default G (kw.pumping kwargs))
              (default 40%Z (kw.num_nodes kwargs)) (default 1.0e-1%float (kw.dx kwargs)))
    as Hget.
  { unfold Solution.getPumping. cbn [Solution.init_sol Solution.num_nodes Solution.dx
      Solution.pumping]. rewrite Hshape. cbn [np.len mbind result_bind].
    rewrite decide_False; [done|]. nia. }
  split; [exact Hshape|]. split; [exact Hget|].
  intros a Ha. rewrite Hget in Ha. by apply radial_sample_shape in Ha.
Qed.

(** The call of [solve2d.py]: 40 by 40 values, sampled at 40 nodes. *)
Lemma fabricated_2d_field_is_sampled_radially_witness :
  ∃ m a, Problem.fabricateModel2D flat_top solve2d_kwargs = Ok m ∧
         ashape (Solution.init_sol (solution m)) = Sh2 40 40 ∧
         Solution.getPumping (solution m) = Ok a ∧
         length (data a) = 40.
Proof.
  assert (∃ m, Problem.fabricateModel2D flat_top solve2d_kwargs = Ok m) as [m Hm]
    by (eexists; reflexivity).
  destruct (fabricated_2d_field_is_sampled_radially flat_top solve2d_kwargs m
              (kw.Float 0.1) Hm eq_refl ltac:(cbn; lia)) as (Hs & Hg & Ha).
  assert (∃ a, Solution.radial_sample flat_top 40 0.1 = Ok a) as [a Hr]
    by (eexists; reflexivity).
  exists m, a. split; [exact Hm|]. split; [exact Hs|].
  assert (Solution.getPumping (solution m) = Ok a) as Hga by (rewrite Hg; exact Hr).
  split; [exact Hga|]. exact (proj2 (Ha a Hga)).
Defined.

Lemma init_accepts_any_arguments dt dx nn order ni p init dt' dx' nn' order' ni' p' init'
    (o : gmap string float) :
  is_Ok (Solution.__init__ dt dx nn order ni p o init) →
  ∃ self, Solution.__init__ dt' dx' nn' order' ni' p' o init' = Ok self ∧
          Solution.init_sol self = init' ∧ Solution.num_nodes self = nn'.
Proof.
  intros [s H]. apply init_inv in H
    as (R & gamma & g & tg & gR & HR & Hgamma & Hg & Htg & HgR & H2 & H11 & H13 & _).
  destruct (init_ok dt' dx' nn' order' ni' p' o init' _ _ _ _ _
              HR Hgamma Hg Htg HgR H2 H11 H13) as [self H].
  exists self. split; [exact H|].
  apply init_inv in H as (? & ? & ? & ? & ? & _ & _ & _ & _ & _ & _ & _ & _ & ->). done.
Qed.

(** X8: with a scalar [u0] a negative node count makes the fabricate
    method raise [ValueError]; with a field as [u0] and parameters that
    the constructor accepts, the method returns a model with that field
    and that node count, whatever they are: field and node count are not
    compared. *)
Theorem factory_node_count_check (G : Pumping) (kwargs : kw.t) (dim : Solver) :
  (∀ s, default (kw.Scalar (kw.Float 1.0e-1%float)) (kw.u0 kwargs) = kw.Scalar s →
        (default (match dim with Solver1D => 1000 | Solver2D => 40 end) (kw.num_nodes kwargs)
         < 0)%Z →
        match dim with
        | Solver1D => Problem.fabricateModel1D G kwargs
        | Solver2D => Problem.fabricateModel2D G kwargs
        end = Raise ValueError) ∧
  (∀ a o dt dx nn order ni p init,
        kw.u0 kwargs = Some (kw.Field a) →
        kw.original_params kwargs = Some o →
        is_Ok (Solution.__init__ dt dx nn order ni p o init) →
        ∃ m, match dim with
             | Solver1D => Problem.fabricateModel1D G kwargs
             | Solver2D => Problem.fabricateModel2D G kwargs
             end = Ok m ∧
             Solution.init_sol (solution m) = a ∧
             Solution.num_nodes (solution m)
             = default (match dim with Solver1D => 1000 | Solver2D => 40 end)%Z
                 (kw.num_nodes kwargs)).
Proof.
  split.
  - intros s Hu0 Hn. destruct dim.
    + unfold Problem.fabricateModel1D, Problem.defaults.
      cbn [kw.u0 kw.num_nodes kw.get mbind result_bind]. rewrite Hu0.
      unfold np.ones. by destruct (Z.ltb_spec (default 1000%Z (kw.num_nodes kwargs)) 0);
        [|lia].
    + unfold Problem.fabricateModel2D, Problem.defaults.
      cbn [kw.u0 kw.num_nodes kw.get mbind result_bind]. rewrite Hu0.
      unfold np.ones2. by destruct (Z.ltb_spec (default 40%Z (kw.num_nodes kwargs)) 0);
        [|lia].
  - intros a o dt dx nn order ni p init Hu0 Ho Hok.
    destruct kwargs as [mo dxo dto t0o u0o oo po nno nio opo].
    cbn [kw.u0 kw.original_params kw.num_nodes] in *. subst u0o opo. destruct dim.
    + destruct (init_accepts_any_arguments _ _ _ _ _ _ _
                  (default 1.0e-3%float dto) (default 1.0e-1%float dxo)
                  (default 1000%Z nno) (default 5%Z oo)
                  (default 100000%Z nio) (default G po)
                  a o Hok) as (self & Hself & Hfield & Hnn).
      exists {| solution := self; solver := Solver1D |}.
      unfold Problem.fabricateModel1D, Problem.defaults, Model1D.
      cbn [kw.u0 kw.num_nodes kw.dt kw.dx kw.order kw.num_iters kw.pumping
           kw.original_params kw.get mbind result_bind default from_option id].
      rewrite Hself. done.
    + destruct (init_accepts_any_arguments _ _ _ _ _ _ _
                  (default 1.0e-3%float dto) (default 1.0e-1%float dxo)
                  (default 40%Z nno) (default 3%Z oo)
                  (default 1000%Z nio) (default G po)
                  a o Hok) as (self & Hself & Hfield & Hnn).
      exists {| solution := self; solver := Solver2D |}.
      unfold Problem.fabricateModel2D, Problem.defaults, Model2D.
      cbn [kw.u0 kw.num_nodes kw.dt kw.dx kw.order kw.num_iters kw.pumping
           kw.original_params kw.get mbind result_bind default from_option id].
      rewrite Hself. done.
Qed.

(** Minus three nodes: refused with the default [u0], accepted with a
    field of five values. *)
Lemma factory_node_count_check_witness :
  Problem.fabricateModel1D flat_top negative_kwargs = Raise ValueError ∧
  ∃ m, Problem.fabricateModel1D flat_top field_kwargs = Ok m ∧
       Solution.init_sol (solution m) = uniform 5 ∧
       Solution.num_nodes (solution m) = (-3)%Z.
Proof.
  split.
  - apply (proj1 (factory_node_count_check flat_top negative_kwargs Solver1D)
             (kw.Float 0.1)); [reflexivity | cbn; lia].
  - apply (proj2 (factory_node_count_check flat_top field_kwargs Solver1D)
             (uniform 5) solve2d_params 0.001%float 0.1%float 4%Z 3%Z 10%Z flat_top
             (uniform 4)); [reflexivity | reflexivity | eexists; reflexivity].
Defined.

(** X9: [model] raises [KeyError] when the model kind is absent, and the
    exception "Unknown model passed!" for a kind other than "1d",
    "default" and "2d"; when it returns, the model is the one of
    [fabricateModel1D] with a 1D solver for "1d" and "default", and the
    one of [fabricateModel2D] with a 2D solver for "2d". *)
Theorem model_dispatch (G : Pumping) (kwargs : kw.t) :
  (kw.model kwargs = None → Problem.model G kwargs = Raise (KeyError "model")) ∧
  (∀ kind, kw.model kwargs = Some kind →
     kind ≠ "1d" → kind ≠ "default" → kind ≠ "2d" →
     Problem.model G kwargs = Raise (Exception "Unknown model passed!")) ∧
  (∀ m, Problem.model G kwargs = Ok m →
     ∃ kind, kw.model kwargs = Some kind ∧
       (((kind = "1d" ∨ kind = "default") ∧ solver m = Solver1D ∧
         Problem.fabricateModel1D G kwargs = Ok m) ∨
        (kind = "2d" ∧ solver m = Solver2D ∧
         Problem.fabricateModel2D G kwargs = Ok m))).
Proof.
  unfold Problem.model. split; [|split].
  - by intros ->.
  - intros kind -> H1 H2 H3. rewrite decide_False by (by intros [?|?]).
    by rewrite decide_False.
  - intros m H. destruct (kw.model kwargs) as [kind|]; [|discriminate H].
    exists kind. split; [done|]. destruct (decide (kind = "1d" ∨ kind = "default")).
    + left. split; [done|]. split; [|done].
      by apply (fabricate_inv G kwargs Solver1D) in H as (? & ? & _ & _ & ? & _).
    + destruct (decide (kind = "2d")); [|discriminate H].
      right. split; [done|]. split; [|done].
      by apply (fabricate_inv G kwargs Solver2D) in H as (? & ? & _ & _ & ? & _).
Qed.

Lemma model_dispatch_witness :
  ∃ m, Problem.model flat_top solve2d_kwargs = Ok m ∧ solver m = Solver2D ∧
       Problem.fabricateModel2D flat_top solve2d_kwargs = Ok m.
Proof.
  assert (∃ m, Problem.model flat_top solve2d_kwargs = Ok m) as [m Hm]
    by (eexists; reflexivity).
  destruct (proj2 (proj2 (model_dispatch flat_top solve2d_kwargs)) m Hm)
    as (kind & Hk & [([Hk' | Hk'] & _) | (_ & Hs & Hf)]).
  - rewrite Hk' in Hk. discriminate Hk.
  - rewrite Hk' in Hk. discriminate Hk.
  - exists m. split; [exact Hm|]. split; [exact Hs | exact Hf].
Defined.

(** [store] leaves name resolution alone and touches no file but the one
    its name denotes. *)
Lemma store_touches_one_file self fs filename label desc date r fs' :
  Solution.store self fs filename label desc date = (r, fs') →
  sio.locate fs' = sio.locate fs ∧
  ∀ p, sio.locate fs sio.Write (sio.appendmat (Solution.file_name filename date)) ≠ Ok p →
       sio.files fs' !! p = sio.files fs !! p.
Proof.
  unfold Solution.store, sio.savemat. intros H.
  destruct (Solution.getPumping self) as [a|e]; [|by injection H as <- <-].
  destruct (sio.locate fs _ _) as [q|e]; [|by injection H as <- <-].
  destruct (sio.put_variables _) as [r' f]. injection H as <- <-. cbn [sio.locate sio.files].
  split; [done|]. intros p Hp. apply lookup_insert_ne. congruence.
Qed.

(** A [store] that returns has written a mat-file with all its
    variables. *)
Lemma store_inv self fs filename label desc date fs' :
  Solution.store self fs filename label desc date = (Ok (), fs') →
  ∃ p mf,
    sio.locate fs sio.Write (sio.appendmat (Solution.file_name filename date)) = Ok p ∧
    fs' = {| sio.locate := sio.locate fs;
             sio.files := <[p := sio.MatFile mf]> (sio.files fs) |} ∧
    sio.m_desc mf = Some (sio.chars desc) ∧ sio.m_label mf = Some (sio.chars label) ∧
    sio.m_dimlesses mf = Some (sio.atleast_2d (Solution.coeffs self)).
Proof.
  unfold Solution.store, sio.savemat. intros H.
  destruct (Solution.getPumping self) as [a|e]; [|discriminate H].
  destruct (sio.locate fs _ _) as [q|e]; [|discriminate H].
  unfold sio.put_variables in H. cbn [sio.originals sio.solution] in H.
  destruct (sio.to_writeable _) as [fields|e]; [|discriminate H].
  case_decide; [|discriminate H].
  destruct (Solution.solution self) as [sol|]; [|discriminate H].
  injection H as <-. eexists _, _. split; [reflexivity|]. split; [reflexivity|]. done.
Qed.

(** [restore] reads the file system through [loadmat] only. *)
Lemma restore_reads_one_file fs1 fs2 name1 name2 target :
  sio.loadmat fs1 name1 = sio.loadmat fs2 name2 →
  Solution.restore fs1 name1 target = Solution.restore fs2 name2 target.
Proof. intros H. unfold Solution.restore. by rewrite H. Qed.

(** A name that can be opened is read as it is. *)
Lemma open_file_located fs name p :
  sio.locate fs sio.Read name = Ok p → is_Some (sio.files fs !! p) →
  sio._open_file fs name = Ok p.
Proof.
  intros Hl [f Hf]. unfold sio._open_file, sio.open_rb. rewrite Hl.
  cbn [mbind result_bind]. by rewrite Hf.
Qed.

(** X10: [store] changes no file but the one its name denotes, with
    [.mat] appended if the name does not end in it.  After a store that
    returned and a second store, which may have raised, every name that
    is opened as the first file is restored as before the second store
    when the two stores denote different files; when they denote the
    same file and the second store came to open it, the first store has
    left no trace. *)
Theorem stores_do_not_interfere (a b : Solution.t) (fs fs1 fs2 : sio.filesystem)
    f1 l1 d1 date1 f2 l2 d2 date2 (p1 p2 : string) (r2 : result unit) :
  sio.locate fs sio.Write (sio.appendmat (Solution.file_name f1 date1)) = Ok p1 →
  sio.locate fs sio.Write (sio.appendmat (Solution.file_name f2 date2)) = Ok p2 →
  Solution.store a fs f1 l1 d1 date1 = (Ok (), fs1) →
  Solution.store b fs1 f2 l2 d2 date2 = (r2, fs2) →
  (∀ p, p ≠ p1 → sio.files fs1 !! p = sio.files fs !! p) ∧
  (p1 ≠ p2 →
   ∀ name target, sio.locate fs sio.Read name = Ok p1 →
     Solution.restore fs2 name target = Solution.restore fs1 name target) ∧
  (p1 = p2 → is_Ok (Solution.getPumping b) →
   Solution.store b fs f2 l2 d2 date2 = (r2, fs2)).
Proof.
  intros Hp1 Hp2 H1 H2.
  destruct (store_touches_one_file _ _ _ _ _ _ _ _ H1) as [Hl1 Hf1].
  split; [|split].
  - intros p Hp. apply Hf1. rewrite Hp1. congruence.
  - intros Hne name target Hname.
    destruct (store_touches_one_file _ _ _ _ _ _ _ _ H2) as [Hl2 Hf2].
    apply store_inv in H1 as (q & mf & Hq & -> & _).
    assert (q = p1) as -> by congruence. cbn [sio.locate sio.files] in *.
    assert (sio.files fs2 !! p1 = Some (sio.MatFile mf)) as Hsame.
    { rewrite Hf2; [apply lookup_insert_eq|]. rewrite Hp2. congruence. }
    apply restore_reads_one_file. unfold sio.loadmat.
    rewrite !(open_file_located _ name p1);
      rewrite ?Hl2; cbn [sio.locate sio.files]; rewrite ?Hsame, ?lookup_insert_eq; eauto.
    cbn [mbind result_bind]. by rewrite Hsame, lookup_insert_eq.
  - intros <- [s Hs]. apply store_inv in H1 as (q & mf & Hq & -> & _).
    assert (q = p1) as -> by congruence.
    unfold Solution.store, sio.savemat in *. rewrite Hs in *.
    cbn [sio.locate sio.files] in H2. rewrite Hp2 in *.
    destruct (sio.put_variables _) as [r f]. injection H2 as <- <-.
    by rewrite insert_insert_eq.
Qed.

(** Two solutions stored as [a] and as [b.mat] do not interfere; stored
    as [a] and as [./a.mat] they are one file. *)
Lemma stores_do_not_interfere_witness :
  ∃ fs1 fs2 fs3 r3,
    Solution.store line4 working_directory (Some "a") "" "" "2016-05-01 12:00:00"
    = (Ok (), fs1) ∧
    Solution.store square2 fs1 (Some "b.mat") "" "" "2016-05-01 12:00:00" = (Ok (), fs2) ∧
    sio.files fs1 !! "b.mat" = None ∧
    Solution.restore fs2 "a.mat" mismatched = Solution.restore fs1 "a.mat" mismatched ∧
    Solution.store mismatched fs1 (Some "./a.mat") "" "" "2016-05-01 12:00:00" = (r3, fs3) ∧
    Solution.store mismatched working_directory (Some "./a.mat") "" "" "2016-05-01 12:00:00"
    = (r3, fs3).
Proof.
  assert (∃ fs1, Solution.store line4 working_directory (Some "a") "" ""
                   "2016-05-01 12:00:00" = (Ok (), fs1)) as [fs1 H1]
    by (eexists; vm_compute; reflexivity).
  assert (∃ fs2, Solution.store square2 fs1 (Some "b.mat") "" "" "2016-05-01 12:00:00"
                 = (Ok (), fs2)) as [fs2 H2].
  { pose proof H1 as H. vm_compute in H. injection H as <-.
    eexists. vm_compute. reflexivity. }
  assert (∃ r3 fs3, Solution.store mismatched fs1 (Some "./a.mat") "" ""
                      "2016-05-01 12:00:00" = (r3, fs3)) as (r3 & fs3 & H3).
  { destruct (Solution.store mismatched fs1 _ _ _ _) as [r3 fs3]. by eexists _, _. }
  destruct (stores_do_not_interfere line4 square2 working_directory fs1 fs2
              (Some "a") "" "" "2016-05-01 12:00:00"
              (Some "b.mat") "" "" "2016-05-01 12:00:00" "a.mat" "b.mat" (Ok ()))
    as (Hn & Hr & _); [vm_compute; reflexivity | vm_compute; reflexivity | done | done |].
  destruct (stores_do_not_interfere line4 mismatched working_directory fs1 fs3
              (Some "a") "" "" "2016-05-01 12:00:00"
              (Some "./a.mat") "" "" "2016-05-01 12:00:00" "a.mat" "a.mat" r3)
    as (_ & _ & Hsame); [vm_compute; reflexivity | vm_compute; reflexivity | done | done |].
  exists fs1, fs2, fs3, r3. split; [exact H1|]. split; [exact H2|]. split.
  - rewrite (Hn "b.mat"); [reflexivity | discriminate].
  - split; [apply Hr; [discriminate | vm_compute; reflexivity]|].
    split; [exact H3|]. apply Hsame; [reflexivity|]. eexists. reflexivity.
Defined.

Lemma has_space_replace (s t : string) :
  has_space (replace_spaces s ++ t) = has_space t.
Proof.
  induction s as [|c s IH]; [done|]. cbn [replace_spaces].
  destruct (decide (c = " "%char)) as [->|Hc]; simpl.
  - exact IH.
  - by rewrite decide_False.
Qed.

Lemma length_replace_spaces (s : string) :
  String.length (replace_spaces s) = String.length s.
Proof. induction s as [|c s IH]; [done|]. simpl. by rewrite IH. Qed.

Lemma length_append (s t : string) :
  String.length (s ++ t) = String.length s + String.length t.
Proof. induction s as [|c s IH]; [done|]. simpl. by rewrite IH. Qed.

(** X11: when [filename] is [None] or empty, the file name is the time
    stamp with every blank replaced by an underscore, followed by
    ".mat": it holds no blank and is four characters longer than the
    stamp. *)
Theorem default_file_name (filename : option string) (date : string) :
  filename = None ∨ filename = Some "" →
  Solution.file_name filename date = (replace_spaces date ++ ".mat")%string ∧
  has_space (Solution.file_name filename date) = false ∧
  String.length (Solution.file_name filename date) = String.length date + 4.
Proof.
  intros H.
  assert (Solution.file_name filename date = (replace_spaces date ++ ".mat")%string) as ->
    by (by destruct H as [-> | ->]).
  split; [done|]. split.
  - by rewrite has_space_replace.
  - by rewrite length_append, length_replace_spaces.
Qed.

Lemma default_file_name_witness :
  Solution.file_name None "2016-05-01 12:00:00" = "2016-05-01_12:00:00.mat" ∧
  has_space (Solution.file_name None "2016-05-01 12:00:00") = false.
Proof.
  destruct (default_file_name None "2016-05-01 12:00:00" (or_introl eq_refl))
    as (Hn & Hs & _).
  split; [exact Hn | exact Hs].
Defined.

(** What the model's [store] does: nothing when the file cannot be
    opened, and otherwise a file of three variables. *)
Lemma model_store_inv (m : AbstractModel.t) (fs fs' : sio.filesystem) filename label desc
    date :
  AbstractModel.store m fs filename label desc date = (Ok (), fs') →
  ∃ p, sio.locate fs sio.Write (sio.appendmat (Solution.file_name filename date)) = Ok p ∧
       fs' = {| sio.locate := sio.locate fs;
                sio.files := <[p := sio.MatFile {|
                  sio.m_desc := Some (sio.chars desc);
                  sio.m_dimlesses := None;
                  sio.m_elapsed_time := None;
                  sio.m_label := Some (sio.chars label);
                  sio.m_originals := Some ∅;
                  sio.m_pumping := None;
                  sio.m_solution := None |}]> (sio.files fs) |}.
Proof.
  unfold AbstractModel.store, sio.savemat. intros H.
  destruct (sio.locate fs _ _) as [p|e]; [|discriminate H].
  unfold sio.put_variables, sio.to_writeable in H. cbn [sio.originals sio.solution] in H.
  rewrite decide_False in H by (rewrite lookup_empty; by intros [? ?]).
  rewrite map_filter_empty in H.
  rewrite decide_True in H by apply map_Forall_empty.
  injection H as <-. by exists p.
Qed.

(** The text that [restore] reads from a stored string. *)
Lemma chars_head (s : string) : match sio.chars s with [] => "" | t :: _ => t end = s.
Proof. unfold sio.chars. by case_decide. Qed.

(** X12: when [Solution.restore] reaches a file that
    [AbstractModel.store] has written, it raises [KeyError] for
    "dimlesses"; by then it has set [desc] to the text that was stored,
    and it leaves coefficients, elapsed time, parameters, field and label
    as they were. *)
Theorem model_file_is_rejected (m : AbstractModel.t) (self : Solution.t)
    (fs fs' : sio.filesystem) filename label desc date :
  AbstractModel.store m fs filename label desc date = (Ok (), fs') →
  sio._open_file fs' (Solution.file_name filename date)
  = sio.locate fs sio.Write (sio.appendmat (Solution.file_name filename date)) →
  ∃ self',
    Solution.restore fs' (Solution.file_name filename date) self
    = (Raise (KeyError "dimlesses"), self') ∧
    Solution.desc self' = Some desc ∧
    Solution.coeffs self' = Solution.coeffs self ∧
    Solution.elapsed_time self' = Solution.elapsed_time self ∧
    Solution.originals self' = Solution.originals self ∧
    Solution.solution self' = Solution.solution self ∧
    Solution.label self' = Solution.label self.
Proof.
  intros H Hopen. apply model_store_inv in H as (p & Hp & ->). rewrite Hp in Hopen.
  unfold Solution.restore, Solution.lift, Solution.assign.
  unfold mbind at 1, Solution.method_bind at 1.
  erewrite loadmat_reads; [|exact Hopen|cbn [sio.files]; apply lookup_insert_eq].
  unfold mbind, Solution.method_bind. cbn.
  eexists. split; [reflexivity|]. cbn. rewrite chars_head. by repeat split.
Qed.

Lemma model_file_is_rejected_witness :
  ∃ fs' self',
    AbstractModel.store model_object working_directory (Some "m") "" "a model"
      "2016-05-01 12:00:00" = (Ok (), fs') ∧
    Solution.restore fs' "m" line4 = (Raise (KeyError "dimlesses"), self') ∧
    Solution.desc self' = Some "a model" ∧
    Solution.solution self' = Solution.solution line4.
Proof.
  assert (∃ fs', AbstractModel.store model_object working_directory (Some "m") "" "a model"
                   "2016-05-01 12:00:00" = (Ok (), fs')) as [fs' H1]
    by (eexists; vm_compute; reflexivity).
  destruct (model_file_is_rejected model_object line4 _ _ _ _ _ _ H1)
    as (self' & Hr & Hd & _ & _ & _ & Hs & _).
  { pose proof H1 as H. vm_compute in H. injection H as <-. vm_compute. reflexivity. }
  exists fs', self'. split; [exact H1|]. split; [exact Hr|]. split; [exact Hd | exact Hs].
Defined.

(** X13: when [AbstractModel.restore] reaches a file that either store
    method has written, it returns; it sets [desc] and [label], resets
    [originals] to the empty dictionary and leaves the model's solution
    and solver alone. *)
Theorem model_restore_reads_both (m other : AbstractModel.t) (s : Solution.t)
    (fs fs' : sio.filesystem) filename label desc date :
  AbstractModel.store other fs filename label desc date = (Ok (), fs') ∨
  Solution.store s fs filename label desc date = (Ok (), fs') →
  sio._open_file fs' (Solution.file_name filename date)
  = sio.locate fs sio.Write (sio.appendmat (Solution.file_name filename date)) →
  ∃ m', AbstractModel.restore fs' (Solution.file_name filename date) m = (Ok (), m') ∧
        AbstractModel.model m' = AbstractModel.model m ∧
        AbstractModel.originals m' = Some ∅ ∧
        is_Some (AbstractModel.desc m') ∧ is_Some (AbstractModel.label m').
Proof.
  intros [H|H] Hopen.
  - apply model_store_inv in H as (p & Hp & ->). rewrite Hp in Hopen.
    unfold AbstractModel.restore.
    erewrite loadmat_reads; [|exact Hopen|cbn [sio.files]; apply lookup_insert_eq].
    cbn. eexists. split; [reflexivity|]. cbn. by repeat split.
  - apply store_inv in H as (p & mf & Hp & -> & Hd & Hl & _). rewrite Hp in Hopen.
    unfold AbstractModel.restore.
    erewrite loadmat_reads; [|exact Hopen|cbn [sio.files]; apply lookup_insert_eq].
    rewrite Hd, Hl. cbn.
    eexists. split; [reflexivity|]. cbn. by repeat split.
Qed.

(** A model object reads the file of a Solution. *)
Lemma model_restore_reads_both_witness :
  ∃ fs' m',
    Solution.store line4 working_directory (Some "a.mat") "" "" "2016-05-01 12:00:00"
    = (Ok (), fs') ∧
    AbstractModel.restore fs' "a.mat" model_object = (Ok (), m') ∧
    AbstractModel.model m' = AbstractModel.model model_object ∧
    AbstractModel.originals m' = Some ∅.
Proof.
  assert (∃ fs', Solution.store line4 working_directory (Some "a.mat") "" ""
                   "2016-05-01 12:00:00" = (Ok (), fs')) as [fs' H1]
    by (eexists; vm_compute; reflexivity).
  destruct (model_restore_reads_both model_object model_object line4 _ _ _ _ _ _
              (or_intror H1)) as (m' & Hr & Hm & Ho & _).
  { pose proof H1 as H. vm_compute in H. injection H as <-. vm_compute. reflexivity. }
  exists fs', m'. split; [exact H1|]. split; [exact Hr|]. split; [exact Hm | exact Ho].
Defined.

Lemma bdim_inv a b c :
  np.bdim a b = Ok c → (a = b ∧ c = a) ∨ (a = 1 ∧ c = b) ∨ (b = 1 ∧ c = a).
Proof. unfold np.bdim. repeat case_decide; intros [= <-]; auto. Qed.

Lemma broadcast_shape {A B C} (f : A → B → C) a b c :
  np.broadcast f a b = Ok c →
  ∃ r k, np.bdim (np.view2 (shape a)).1 (np.view2 (shape b)).1 = Ok r ∧
         np.bdim (np.view2 (shape a)).2 (np.view2 (shape b)).2 = Ok k ∧
         shape c = np.bshape (np.rank (shape a) `max` np.rank (shape b)) r k.
Proof.
  unfold np.broadcast. intros H. bind_inv H. injection H as <-. by eexists _, _.
Qed.

Lemma item_shape {A} (c : ndarray A) k i it :
  shape c = Sh1 k ∨ shape c = Sh2 k 1 → np.item c i = Ok it →
  shape it = Sh0 ∨ shape it = Sh1 1.
Proof.
  unfold np.item. intros [Hs|Hs] H; rewrite Hs in H; case_decide; simplify_eq/=; auto.
Qed.

(** X14: when the field is one-dimensional and [visualize] computes its
    curves without an exception, the nodes [arange(0, dx * num_nodes,
    dx)] and the field have the same number of values, or one of them is
    a single value. *)
Theorem visualize_needs_matching_lengths (self : Solution.t) (sol : array) (m k : nat)
    (cv : Solution.curves) :
  Solution.solution self = Some sol →
  ashape sol = Sh1 m →
  shape (Solution.coeffs self) = Sh1 k ∨ shape (Solution.coeffs self) = Sh2 k 1 →
  Solution.visualize self = Ok cv →
  shape (Solution.x_nodes cv) = Sh1 (length (data (Solution.x_nodes cv))) ∧
  (length (data (Solution.x_nodes cv)) = m ∨ length (data (Solution.x_nodes cv)) = 1
   ∨ m = 1).
Proof.
  intros Hsol Hm Hk H. unfold Solution.visualize in H. rewrite Hsol in H.
  destruct (Float.of_int _) as [nn|]; [|discriminate H]. cbn [mbind result_bind] in H.
  destruct (np.arange _ _ _) as [x|] eqn:Hx; [|discriminate H].
  cbn [mbind result_bind] in H.
  destruct (np.item _ 11) as [c11|] eqn:E11; [|discriminate H].
  cbn [mbind result_bind] in H.
  destruct (np.mul c11 _) as [t1|] eqn:E1; [|discriminate H].
  cbn [mbind result_bind] in H.
  destruct (np.item _ 12) as [c12|] eqn:E12; [|discriminate H].
  cbn [mbind result_bind] in H.
  destruct (np.item _ 13) as [c13|] eqn:E13; [|discriminate H].
  cbn [mbind result_bind] in H.
  destruct (np.mul c13 _) as [t2|] eqn:E2; [|discriminate H].
  cbn [mbind result_bind] in H.
  destruct (np.add c12 _) as [t3|] eqn:E3; [|discriminate H].
  cbn [mbind result_bind] in H.
  destruct (np.div t1 t3) as [n|] eqn:E4; [|discriminate H].
  injection H as <-. cbn [Solution.x_nodes].
  pose proof (arange_line _ _ _ _ Hx) as Hline. split; [exact Hline|].
  set (L := length (data x)) in *.
  apply (item_shape _ k) in E11 as H11; [|done].
  apply (item_shape _ k) in E12 as H12; [|done].
  apply (item_shape _ k) in E13 as H13; [|done].
  apply broadcast_shape in E1 as (r1 & k1 & Hr1 & Hk1 & Hs1).
  apply broadcast_shape in E2 as (r2 & k2 & Hr2 & Hk2 & Hs2).
  apply broadcast_shape in E3 as (r3 & k3 & Hr3 & Hk3 & Hs3).
  apply broadcast_shape in E4 as (r4 & k4 & Hr4 & Hk4 & Hs4).
  unfold call1 in *. cbn [shape] in *. rewrite density_shape, Hm in *.
  rewrite Hline in *.
  assert (shape t1 = Sh1 L) as Ht1.
  { destruct H11 as [E|E]; rewrite E in *; cbn in *;
      rewrite bdim_same in Hr1; rewrite bdim_one in Hk1; by simplify_eq. }
  assert (shape t2 = Sh1 m) as Ht2.
  { destruct H13 as [E|E]; rewrite E in *; cbn in *;
      rewrite bdim_same in Hr2; rewrite bdim_one in Hk2; by simplify_eq. }
  assert (shape t3 = Sh1 m) as Ht3.
  { rewrite Ht2 in *. destruct H12 as [E|E]; rewrite E in *; cbn in *;
      rewrite bdim_same in Hr3; rewrite bdim_one in Hk3; by simplify_eq. }
  rewrite Ht1, Ht3 in Hk4. cbn in Hk4. apply bdim_inv in Hk4. lia.
Qed.

(** Four nodes and four field values. *)
Lemma visualize_needs_matching_lengths_witness :
  ∃ cv, Solution.visualize line4 = Ok cv ∧
        (length (data (Solution.x_nodes cv)) = 4 ∨ length (data (Solution.x_nodes cv)) = 1
         ∨ 4 = 1).
Proof.
  assert (∃ cv, Solution.visualize line4 = Ok cv) as [cv Hcv] by (eexists; reflexivity).
  exists cv. split; [exact Hcv|].
  exact (proj2 (visualize_needs_matching_lengths line4 _ 4 23 cv eq_refl eq_refl
                  (or_introl eq_refl) Hcv)).
Defined.

Lemma last_join_replicate {A} n (l : list A) x :
  last l = Some x → last (mjoin (replicate (S n) l)) = Some x.
Proof.
  intros Hl. induction n as [|n IH]; simpl in *.
  - by rewrite app_nil_r.
  - rewrite last_app. by rewrite IH.
Qed.

Lemma last_replicate_S {A} n (x : A) : last (replicate (S n) x) = Some x.
Proof. induction n as [|n IH]; [done|]. exact IH. Qed.

Lemma last_bind_replicate {A} n (l : list A) x :
  last l = Some x → last (y ← l; replicate (S n) y) = Some x.
Proof.
  intros Hl. apply last_Some in Hl as [l' ->].
  rewrite bind_app, last_app. cbn [mbind list_bind]. rewrite app_nil_r.
  by rewrite last_replicate_S.
Qed.

Lemma last_zip_with {A B C} (f : A → B → C) (l : list A) (k : list B) x y :
  length l = length k → last l = Some x → last k = Some y →
  last (zip_with f l k) = Some (f x y).
Proof.
  intros Hlen Hl Hk.
  apply last_Some in Hl as [l' ->]. apply last_Some in Hk as [k' ->].
  rewrite !length_app in Hlen. cbn in Hlen.
  rewrite zip_with_app by lia. by rewrite last_app.
Qed.

(** X15: in the mesh branch, with more than one node, [getPumping] returns
    a sample whose last value is the profile at the corner
    [(num_nodes * dx / 2, num_nodes * dx / 2)]. *)
Theorem mesh_reaches_the_corner (self : Solution.t) (l : nat) (nf : float) :
  np.len (ashape (Solution.init_sol self)) = Ok l →
  Z.of_nat l = (Solution.num_nodes self ^ 2)%Z →
  (1 < Solution.num_nodes self)%Z →
  Float.of_int (Solution.num_nodes self) = Ok nf →
  ∃ a, Solution.getPumping self = Ok a ∧
       last (data a)
       = Some (at2 (Solution.pumping self) (nf * Solution.dx self / 2)
                 (nf * Solution.dx self / 2))%float.
Proof.
  intros Hl Hsq Hn Hnf. unfold Solution.getPumping. rewrite Hl. cbn [mbind result_bind].
  rewrite decide_True by done.
  assert (0 ≤ Solution.num_nodes self)%Z as Hn0 by lia.
  destruct (cartesian_sample_ok (Solution.pumping self) _ (Solution.dx self) nf
              Hn0 Hnf) as (x & Hx & -> & _).
  eexists. split; [reflexivity|]. cbn [data].
  pose proof (linspace_last _ _ _ _ Hn Hx) as Hlast.
  destruct (linspace_ok (- (nf * Solution.dx self / 2)) (nf * Solution.dx self / 2)
              (Solution.num_nodes self) Hn0) as (x' & Hx' & _ & Hlen).
  rewrite Hx in Hx'. injection Hx' as <-.
  destruct (Z.to_nat (Solution.num_nodes self)) as [|n] eqn:Hnat; [lia|].
  apply last_zip_with.
  - rewrite length_join_replicate, length_bind_replicate. lia.
  - by apply last_join_replicate.
  - by apply last_bind_replicate.
Qed.

(** Three by three nodes one unit apart: the last value is taken at
    [x = 1.5]. *)
Lemma mesh_reaches_the_corner_witness :
  ∃ a, Solution.getPumping mesh3 = Ok a ∧ last (data a) = Some 1.5%float.
Proof.
  destruct (mesh_reaches_the_corner mesh3 9 3%float eq_refl eq_refl ltac:(cbn; lia) eq_refl)
    as (a & Ha & Hl).
  exists a. split; [exact Ha | exact Hl].
Defined.

Lemma item_column {A} (c : ndarray A) k i v :
  shape c = Sh2 k 1 → i < k → data c !! i = Some v →
  np.item c i = Ok (NdArray (Sh1 1) [v]).
Proof.
  intros Hs Hi Hv. unfold np.item. rewrite Hs, decide_True by done.
  by rewrite Nat.mul_1_r, (take_1_drop _ _ v).
Qed.

(** A one-element line is combined with every element of a column. *)
Lemma broadcast_scalar_column {A B C} (f : A → B → C) (c : A) (ys : list B) m :
  length ys = m →
  np.broadcast f (NdArray (Sh1 1) [c]) (NdArray (Sh2 m 1) ys)
  = Ok (NdArray (Sh2 m 1) (f c <$> ys)).
Proof.
  intros Hm. unfold np.broadcast. cbn [shape data np.view2 np.rank fst snd].
  rewrite !bdim_one. cbn [mbind result_bind np.bshape Nat.max]. do 2 f_equal.
  subst m. rewrite (bind_seq_lookup _ (λ y, [f c y]) ys 0); [apply bind_singleton|].
  intros j y Hj. cbn [seq mbind list_bind]. rewrite app_nil_r.
  unfold np.bindex. cbn [fst snd np.view2]. rewrite !(decide_True (P := 1 = 1)) by done.
  replace (0 * 1 + 0) with 0 by lia. cbn [lookup list_lookup].
  destruct (decide (length ys = 1)) as [Hl|Hl].
  - destruct ys as [|y' [|]]; cbn in Hl; try lia. destruct j; simplify_eq/=. done.
  - replace ((0 + j) * 1 + 0) with j by lia. by rewrite Hj.
Qed.

(** A line and a column of one length are combined into a table, a row
    for each element of the column. *)
Lemma broadcast_outer {A B C} (f : A → B → C) (xs : list A) (ys : list B) m :
  length xs = m → length ys = m →
  np.broadcast f (NdArray (Sh1 m) xs) (NdArray (Sh2 m 1) ys)
  = Ok (NdArray (Sh2 m m) (y ← ys; (λ x, f x y) <$> xs)).
Proof.
  intros Hx Hy. unfold np.broadcast. cbn [shape data np.view2 np.rank fst snd].
  rewrite bdim_one. 
  assert (np.bdim m 1 = Ok m) as -> by (unfold np.bdim; repeat case_decide; congruence).
  cbn [mbind result_bind np.bshape Nat.max]. do 2 f_equal.
  rewrite <- Hy at 1.
  apply bind_seq_lookup. intros i y Hi.
  rewrite <- bind_singleton. rewrite <- Hx at 1.
  apply bind_seq_lookup. intros j x Hj.
  unfold np.bindex. cbn [fst snd np.view2]. rewrite !(decide_True (P := 1 = 1)) by done.
  destruct (decide (m = 1)) as [Hm|Hm].
  - assert (i = 0) as -> by (apply lookup_lt_Some in Hi; lia).
    assert (j = 0) as -> by (apply lookup_lt_Some in Hj; lia).
    cbn [Nat.add Nat.mul]. by rewrite Hi, Hj.
  - replace (0 * m + (0 + j)) with j by lia. replace ((0 + i) * 1 + 0) with i by lia.
    by rewrite Hi, Hj.
Qed.

Lemma restore_of_store (self target : Solution.t) (fs : sio.filesystem)
    filename label desc date sol a p :
  Solution.solution self = Some sol → Solution.getPumping self = Ok a →
  Solution.originals self !! "" = None →
  (∀ k, is_Some (Solution.originals self !! k) → String.length k ≤ 31) →
  sio.locate fs sio.Write (sio.appendmat (Solution.file_name filename date)) = Ok p →
  ∃ fs',
    Solution.store self fs filename label desc date = (Ok (), fs') ∧
    (sio._open_file fs' (Solution.file_name filename date) = Ok p →
     Solution.restore fs' (Solution.file_name filename date) target
     = (Ok (),
        {| Solution.dt := Solution.dt target; Solution.dx := Solution.dx target;
           Solution.order := Solution.order target;
           Solution.num_nodes := Solution.num_nodes target;
           Solution.num_iters := Solution.num_iters target;
           Solution.pumping := Solution.pumping target;
           Solution.init_sol := Solution.init_sol target;
           Solution.solution := Some (array_T (sio.array_2d sol));
           Solution.originals := ∅;
           Solution.coeffs := np.T (sio.atleast_2d (Solution.coeffs self));
           Solution.elapsed_time :=
             SecondsArray (sio.seconds_2d (Solution.elapsed_time self));
           Solution.desc := Some desc; Solution.label := Some label |})).
Proof.
  intros Hsol Ha Hempty Hlen Hp.
  destruct (store_returns self fs filename label desc date sol a p Hsol Ha Hempty Hlen Hp)
    as [fields Hstore].
  eexists. split; [exact Hstore|]. intros Hopen.
  unfold Solution.restore, Solution.lift, Solution.assign.
  unfold mbind at 1, Solution.method_bind at 1.
  erewrite loadmat_reads; [|exact Hopen|cbn [sio.files]; apply lookup_insert_eq].
  unfold mbind, Solution.method_bind. cbn. by rewrite !chars_head.
Qed.

Lemma density_with_shape s a : density (with_shape s a) = NdArray s (data (density a)).
Proof. by destruct a. Qed.

Lemma outer_reservoir c11 c12 c13 (ps us : list float) :
  (y ← PrimFloat.add c12 <$> (PrimFloat.mul c13 <$> us);
   (λ x, PrimFloat.div x y) <$> (PrimFloat.mul c11 <$> ps))
  = (u ← us; (λ p, reservoir c11 c12 c13 p u) <$> ps).
Proof.
  induction us as [|u us IH]; [done|].
  rewrite !fmap_cons, !bind_cons, IH. f_equal.
  rewrite <- list_fmap_compose. done.
Qed.

(** X16: after a Solution with a one-dimensional field of m values is
    stored and restored into itself, field and coefficients are columns,
    and [visualize] computes the reservoir curve as a table of m by m
    values, [c11 * p / (c12 + c13 * u)] for every density [u] (row) and
    every pumping value [p] (column).  The store returns when the file
    can be opened for writing and the parameter names can be written; the
    restore is taken to reach the file that was written. *)
Theorem visualize_after_round_trip (self : Solution.t) (fs : sio.filesystem)
    filename label desc date (sol : array) (m k : nat) (nn : float) (x : ndarray float)
    (c11 c12 c13 : float) (path : string) :
  Solution.solution self = Some sol →
  ashape sol = Sh1 m → awf sol →
  shape (Solution.coeffs self) = Sh1 k → np.wf (Solution.coeffs self) → 13 < k →
  data (Solution.coeffs self) !! 11 = Some c11 →
  data (Solution.coeffs self) !! 12 = Some c12 →
  data (Solution.coeffs self) !! 13 = Some c13 →
  Float.of_int (Solution.num_nodes self) = Ok nn →
  np.arange 0 (Solution.dx self * nn) (Solution.dx self) = Ok x →
  length (data x) = m →
  is_Ok (Solution.getPumping self) →
  Solution.originals self !! "" = None →
  (∀ key, is_Some (Solution.originals self !! key) → String.length key ≤ 31) →
  sio.locate fs sio.Write (sio.appendmat (Solution.file_name filename date)) = Ok path →
  ∃ fs',
    Solution.store self fs filename label desc date = (Ok (), fs') ∧
    (sio._open_file fs' (Solution.file_name filename date) = Ok path →
     ∃ self' cv,
       Solution.restore fs' (Solution.file_name filename date) self = (Ok (), self') ∧
       Solution.visualize self' = Ok cv ∧
       Solution.n_curve cv
       = NdArray (Sh2 m m)
           (u ← data (density sol);
            (λ p, reservoir c11 c12 c13 p u) <$> (at1 (Solution.pumping self) <$> data x))).
Proof.
  intros Hsol Hm Hwf Hk Hcwf H13 H11v H12v H13v Hnn Hx Hlen [a Ha] Hempty Hnames Hpath.
  destruct (restore_of_store self self fs filename label desc date sol a path
              Hsol Ha Hempty Hnames Hpath) as (fs' & Hstore & Hrestore).
  exists fs'. split; [exact Hstore|]. intros Hopen. specialize (Hrestore Hopen).
  rewrite T_atleast_2d in Hrestore by (by rewrite ?Hk).
  rewrite array_T_2d in Hrestore by (by rewrite ?Hm).
  rewrite Hk, Hm in Hrestore.
  assert (restored_shape (Sh1 k) = Sh2 k 1) as Hrk by (destruct k; [lia | done]).
  rewrite Hrk in Hrestore.
  match type of Hrestore with
  | _ = (_, ?s') =>
      assert (∃ cv, Solution.visualize s' = Ok cv ∧
                Solution.n_curve cv
                = NdArray (Sh2 m m)
                    (u ← data (density sol);
                     (λ p, reservoir c11 c12 c13 p u)
                       <$> (at1 (Solution.pumping self) <$> data x)))
        as (cv & Hv & Hn)
  end.
  { unfold Solution.visualize.
    cbn [Solution.num_nodes Solution.dx Solution.pumping Solution.solution Solution.coeffs].
    rewrite Hnn. cbn [mbind result_bind]. rewrite Hx. cbn [mbind result_bind].
    rewrite (item_column _ k 11 c11), (item_column _ k 12 c12), (item_column _ k 13 c13)
      by (done || lia).
    cbn [mbind result_bind]. rewrite density_with_shape.
    pose proof (arange_line _ _ _ _ Hx) as Hline. rewrite Hlen in Hline.
    pose proof (density_length sol Hwf) as Hdl. rewrite Hm in Hdl. cbn [np.size] in Hdl.
    unfold call1. rewrite Hline. unfold np.mul, np.add, np.div.
    rewrite (broadcast_scalar _ (Sh1 1)) by (auto || by rewrite length_fmap).
    cbn [mbind result_bind].
    destruct m as [|m].
    - destruct (data x); [|discriminate Hlen].
      destruct (data (density sol)); [|discriminate Hdl].
      eexists. split; [vm_compute; reflexivity | reflexivity].
    - cbn [restored_shape].
      rewrite broadcast_scalar_column by done. cbn [mbind result_bind].
      rewrite broadcast_scalar_column by (by rewrite length_fmap). cbn [mbind result_bind].
      rewrite broadcast_outer by (by rewrite !length_fmap).
      cbn [mbind result_bind]. eexists. split; [reflexivity|]. cbn [Solution.n_curve].
      by rewrite outer_reservoir. }
  eexists _, cv. split; [exact Hrestore|]. split; [exact Hv | exact Hn].
Qed.

Lemma visualize_after_round_trip_witness :
  ∃ fs' self' cv,
    Solution.store line4 working_directory (Some "a.mat") "" "" "2016-05-01 12:00:00"
    = (Ok (), fs') ∧
    Solution.restore fs' "a.mat" line4 = (Ok (), self') ∧
    Solution.visualize self' = Ok cv ∧
    shape (Solution.n_curve cv) = Sh2 4 4.
Proof.
  assert (∃ x, np.arange 0 (Solution.dx line4 * 4) (Solution.dx line4) = Ok x) as [x Hx]
    by (eexists; reflexivity).
  assert (length (data x) = 4) as Hlen by (injection Hx as <-; reflexivity).
  assert (∃ c11 c12 c13, data (Solution.coeffs line4) !! 11 = Some c11 ∧
            data (Solution.coeffs line4) !! 12 = Some c12 ∧
            data (Solution.coeffs line4) !! 13 = Some c13) as (c11 & c12 & c13 & H11 & H12 & H13)
    by (do 3 eexists; repeat split; reflexivity).
  assert (is_Ok (Solution.getPumping line4)) as Hp by (eexists; reflexivity).
  assert (Solution.originals line4 !! "" = None) as He by (vm_compute; reflexivity).
  assert (sio.locate working_directory sio.Write
            (sio.appendmat (Solution.file_name (Some "a.mat") "2016-05-01 12:00:00"))
          = Ok "a.mat") as Hw by (vm_compute; reflexivity).
  destruct (visualize_after_round_trip line4 working_directory (Some "a.mat") "" ""
              "2016-05-01 12:00:00" _ 4 23 4%float x c11 c12 c13 "a.mat"
              eq_refl eq_refl eq_refl eq_refl eq_refl ltac:(lia) H11 H12 H13 eq_refl Hx Hlen
              Hp He solve2d_names_fit Hw)
    as (fs' & Hs & Hround).
  destruct Hround as (self' & cv & Hr & Hv & Hn).
  { pose proof Hs as H. vm_compute in H. injection H as <-. vm_compute. reflexivity. }
  exists fs', self', cv. split; [exact Hs|]. split; [exact Hr|]. split; [exact Hv|].
  rewrite Hn. reflexivity.
Defined.


(** Three nodes a tenth apart: [dx * num_nodes] is just above 0.3, so
    that [arange] gives four nodes, which do not go with three field
    values. *)
Example rounded_node_count :
  (∃ x, np.arange 0 (Solution.dx tenths * 3) (Solution.dx tenths) = Ok x ∧
        length (data x) = 4) ∧
  Solution.visualize tenths = Raise ValueError.
Proof. split; [eexists; split; reflexivity | reflexivity]. Qed.
